(** * Zameen Karachi listings: price normalisation, feature extraction,
      record cleaning and dashboard filtering

    A shallow embedding of [clean_data] (with its nested helpers
    [price_to_number], [extract_bed], [extract_bath]) and of the filter
    step of [run_streamlit_app] from [zameen-copy.py].

    Conventions.
    - A Python [str] is a [string]; each [ascii] is read as the code point
      U+0000..U+00FF of the same number, so the character classes below
      are the restrictions of Python's Unicode classes to that range.
    - A Python [float] is an IEEE binary64 value, [spec_float] at
      precision 53 and maximal exponent 1024.
    - A Python [int] is a [Z]; [None] is [None].
    - A call that may raise returns an [outcome]. *)

From Stdlib Require Import ZArith List Bool Ascii String Lia.
From Stdlib Require Import DecimalString DecimalZ.
From Stdlib Require Import Floats.SpecFloat.
Import ListNotations.

Open Scope string_scope.
Open Scope Z_scope.

(** ** Exceptions *)

Inductive exn : Type := ValueError.

Inductive outcome (A : Type) : Type :=
| Returned (a : A)
| Raised (e : exn).

Arguments Returned {A} a.
Arguments Raised {A} e.

Definition bind {A B} (m : outcome A) (k : A -> outcome B) : outcome B :=
  match m with
  | Returned a => k a
  | Raised e => Raised e
  end.

Notation "x <- m ;; k" := (bind m (fun x => k))
  (at level 61, m at next level, right associativity).

(** ** Python [str] operations used by the program *)

Module PyStr.

Definition ord (c : ascii) : nat := nat_of_ascii c.

Definition between (lo hi : nat) (c : ascii) : bool :=
  (Nat.leb lo (ord c) && Nat.leb (ord c) hi)%bool.

(** [str.isspace] for one character: TAB..CR, FS..US, SPACE, NEL, NBSP. *)
Definition isspace (c : ascii) : bool :=
  (between 9 13 c || between 28 32 c
   || Nat.eqb (ord c) 133 || Nat.eqb (ord c) 160)%bool.

(** Decimal digits; U+0030..U+0039 are the only ones below U+0100. *)
Definition isdigit (c : ascii) : bool := between 48 57 c.

Fixpoint startswith (pat s : string) : bool :=
  match pat, s with
  | EmptyString, _ => true
  | String a p, String b t => (Ascii.eqb a b && startswith p t)%bool
  | String _ _, EmptyString => false
  end.

(** [pat in s] *)
Fixpoint contains (pat s : string) : bool :=
  (startswith pat s
   || match s with
      | EmptyString => false
      | String _ t => contains pat t
      end)%bool.

(** [s.replace(old, new)] for a non-empty [old]: a left-to-right scan;
    at a match [new] is emitted and the [skip] counter swallows the rest
    of the matched characters. *)
Fixpoint replace_from (old new : string) (skip : nat) (s : string) : string :=
  match s with
  | EmptyString => EmptyString
  | String c t =>
      match skip with
      | S k => replace_from old new k t
      | O =>
          if startswith old s
          then new ++ replace_from old new (Nat.pred (length old)) t
          else String c (replace_from old new 0 t)
      end
  end.

Definition replace (old new s : string) : string := replace_from old new 0 s.

Fixpoint lstrip (s : string) : string :=
  match s with
  | String c t => if isspace c then lstrip t else s
  | EmptyString => EmptyString
  end.

Fixpoint rstrip (s : string) : string :=
  match s with
  | EmptyString => EmptyString
  | String c t =>
      match rstrip t with
      | EmptyString => if isspace c then EmptyString else String c EmptyString
      | r => String c r
      end
  end.

(** [s.strip()] *)
Definition strip (s : string) : string := rstrip (lstrip s).

Fixpoint drop (n : nat) (s : string) : string :=
  match n, s with
  | S k, String _ t => drop k t
  | _, _ => s
  end.

Fixpoint take (n : nat) (s : string) : string :=
  match n, s with
  | S k, String c t => String c (take k t)
  | _, _ => EmptyString
  end.

(** Length of the longest prefix whose characters all satisfy [cls]. *)
Fixpoint run_length (cls : ascii -> bool) (s : string) : nat :=
  match s with
  | String c t => if cls c then S (run_length cls t) else O
  | EmptyString => O
  end.

(** Value of a run of decimal digits, most significant first. *)
Fixpoint digits_value (acc : Z) (s : string) : Z :=
  match s with
  | String c t => digits_value (10 * acc + (Z.of_nat (ord c) - 48)) t
  | EmptyString => acc
  end.

(** [int(s)] on a non-empty run of digits, as [re] hands it over. *)
Definition int (s : string) : Z := digits_value 0 s.

End PyStr.

(** ** Python [float] *)

Module PyFloat.
Import PyStr.

Definition float : Type := spec_float.

Definition prec : Z := 53.
Definition emax : Z := 1024.

Definition mul : float -> float -> float := SFmul prec emax.
Definition leb : float -> float -> bool := SFleb.
Definition ltb : float -> float -> bool := SFltb.

Definition isnan (x : float) : bool :=
  match x with S754_nan => true | _ => false end.

Definition inf : float := S754_infinity false.

(** The float nearest to an integer (ties to even): what [float * int]
    does to its integer operand. *)
Definition of_int (n : Z) : float := binary_normalize prec emax n 0 false.

(** The float nearest to [m * 10^e] for [0 <= m] (ties to even), the
    value [strtod] gives a decimal literal. A negative exponent is an
    integer division with the remainder kept as the rounding location. *)
Definition of_decimal (neg : bool) (m e : Z) : float :=
  match m with
  | Z0 => S754_zero neg
  | Zpos p =>
      if 0 <=? e
      then binary_round prec emax neg (p * Z.to_pos (10 ^ e)) 0
      else
        let '(q, e', l) := SFdiv_core_binary prec emax (Zpos p) 0 (10 ^ (- e)) 0 in
        binary_round_aux prec emax neg q e' l
  | Zneg _ => S754_nan
  end.

Definition take_sign (s : string) : bool * string :=
  match s with
  | String "-" t => (true, t)
  | String "+" t => (false, t)
  | _ => (false, s)
  end.

Definition is_e (c : ascii) : bool := (Ascii.eqb c "e" || Ascii.eqb c "E")%bool.

(** Exponent part [e[+-]digits]; without a digit nothing is consumed. *)
Definition parse_exponent (s : string) : Z * string :=
  match s with
  | String c t =>
      if is_e c then
        let '(neg, t1) := take_sign t in
        let n := run_length isdigit t1 in
        match n with
        | O => (0, s)
        | S _ => ((if neg then - int (take n t1) else int (take n t1)), drop n t1)
        end
      else (0, s)
  | EmptyString => (0, s)
  end.

(** Fraction part [. digits]: the digits and the unread rest. *)
Definition parse_fraction (s : string) : string * string :=
  match s with
  | String "." t => (take (run_length isdigit t) t, drop (run_length isdigit t) t)
  | _ => (EmptyString, s)
  end.

(** [_Py_dg_strtod]: [[sign] digits [. digits] [exponent]] with at least
    one digit before the exponent. Returns the value and the unread rest. *)
Definition strtod (s : string) : option (float * string) :=
  let '(neg, s1) := take_sign s in
  let ip := take (run_length isdigit s1) s1 in
  let '(fp, s3) := parse_fraction (drop (run_length isdigit s1) s1) in
  match ip ++ fp with
  | EmptyString => None
  | ds =>
      let '(e, rest) := parse_exponent s3 in
      Some (of_decimal neg (int ds) (e - Z.of_nat (length fp)), rest)
  end.

Definition lower (c : ascii) : ascii :=
  if between 65 90 c then ascii_of_nat (ord c + 32) else c.

(** [case_insensitive_match]: [pat] is lower case. *)
Fixpoint imatch (pat s : string) : bool :=
  match pat, s with
  | EmptyString, _ => true
  | String a p, String b t => (Ascii.eqb a (lower b) && imatch p t)%bool
  | String _ _, EmptyString => false
  end.

(** [_Py_parse_inf_or_nan] *)
Definition parse_inf_or_nan (s : string) : option (float * string) :=
  let '(neg, t) := take_sign s in
  if imatch "inf" t then
    let t' := drop 3 t in
    if imatch "inity" t' then Some (S754_infinity neg, drop 5 t')
    else Some (S754_infinity neg, t')
  else if imatch "nan" t then Some (S754_nan, drop 3 t)
  else None.

(** [_PyUnicode_TransformDecimalAndSpaceToASCII]: above U+007E a space
    becomes [" "] and, there being no other decimal digit below U+0100,
    any other character becomes ["?"] and ends the text. *)
Fixpoint to_ascii (s : string) : string :=
  match s with
  | EmptyString => EmptyString
  | String c t =>
      if Nat.ltb (ord c) 127 then String c (to_ascii t)
      else if isspace c then String " " (to_ascii t)
      else String "?" EmptyString
  end.

(** [Py_ISSPACE] *)
Definition c_isspace (c : ascii) : bool :=
  (between 9 13 c || Nat.eqb (ord c) 32)%bool.

Fixpoint c_lstrip (s : string) : string :=
  match s with
  | String c t => if c_isspace c then c_lstrip t else s
  | EmptyString => EmptyString
  end.

Fixpoint c_rstrip (s : string) : string :=
  match s with
  | EmptyString => EmptyString
  | String c t =>
      match c_rstrip t with
      | EmptyString => if c_isspace c then EmptyString else String c EmptyString
      | r => String c r
      end
  end.

(** [_Py_string_to_number_with_underscores]: an underscore is allowed
    only between two digits, and is dropped. [prev] starts as NUL. *)
Fixpoint drop_underscores (prev : ascii) (s : string) : option string :=
  match s with
  | EmptyString => if Ascii.eqb prev "_" then None else Some EmptyString
  | String c t =>
      if Ascii.eqb c "_" then
        if isdigit prev then drop_underscores c t else None
      else if (Ascii.eqb prev "_" && negb (isdigit c))%bool then None
      else option_map (String c) (drop_underscores c t)
  end.

(** [float(s)] for a [str] argument. Overflow gives an infinity and
    underflow a zero or a subnormal, never an exception. *)
Definition of_str (s : string) : outcome float :=
  match drop_underscores zero (c_rstrip (c_lstrip (to_ascii s))) with
  | None => Raised ValueError
  | Some u =>
      match (match strtod u with
             | Some r => Some r
             | None => parse_inf_or_nan u
             end) with
      | Some (x, EmptyString) => Returned x
      | _ => Raised ValueError
      end
  end.

End PyFloat.

(** ** The fragment of [re] the program uses *)

Module Re.
Import PyStr.

(** A pattern is a sequence of pieces; a piece is a literal text or a
    greedy repetition [cls{min,}] of one character class, and may be
    wrapped in a capturing group. *)
Inductive piece : Type :=
| Chars (text : string)
| Greedy (cls : ascii -> bool) (min : nat).

Inductive node : Type :=
| Plain (p : piece)
| Group (p : piece).

Definition pattern : Type := list node.

Definition piece_of (n : node) : piece :=
  match n with Plain p | Group p => p end.

(** Groups captured so far, in pattern order. *)
Definition capture (n : node) (text : string) (groups : list string) : list string :=
  match n with
  | Plain _ => groups
  | Group _ => text :: groups
  end.

(** A greedy repetition first takes [j] characters, the whole run, and
    gives them back one at a time, down to [min], until the rest of the
    pattern [k] matches. *)
Fixpoint backtrack (k : string -> option (list string)) (n : node)
         (min : nat) (s : string) (j : nat) : option (list string) :=
  if Nat.ltb j min then None
  else
    match k (drop j s) with
    | Some groups => Some (capture n (take j s) groups)
    | None =>
        match j with
        | O => None
        | S j' => backtrack k n min s j'
        end
    end.

(** Match [p] at the start of [s]. *)
Fixpoint match_here (p : pattern) (s : string) : option (list string) :=
  match p with
  | [] => Some []
  | n :: rest =>
      match piece_of n with
      | Chars text =>
          if startswith text s
          then option_map (capture n text) (match_here rest (drop (length text) s))
          else None
      | Greedy cls min =>
          backtrack (match_here rest) n min s (run_length cls s)
      end
  end.

(** [re.search]: the match at the leftmost start position that has one. *)
Fixpoint search (p : pattern) (s : string) : option (list string) :=
  match match_here p s with
  | Some groups => Some groups
  | None =>
      match s with
      | EmptyString => None
      | String _ t => search p t
      end
  end.

End Re.

(** ** Data model *)

(** A row of the scraped frame: every cell is a text or [None]. *)
Module Raw.
Record t : Type := mk
  { Location : option string;
    Price : option string;
    Features : option string;
    Last_Updated : option string }.
End Raw.

(** A row of the cleaned frame. *)
Module Clean.
Record t : Type := mk
  { Location : option string;
    Price : option string;
    Price_numeric : PyFloat.float;
    Bedrooms : Z;
    Bathrooms : Z }.
End Clean.

(** ** [clean_data] *)

Import PyStr.

Definition crore : PyFloat.float := PyFloat.of_int 10000000.
Definition lakh : PyFloat.float := PyFloat.of_int 100000.

(** [pd.isna(price)] is the [None] case; the [try]/[except] guards the
    last branch only. *)
Definition price_to_number (price : option string) : outcome (option PyFloat.float) :=
  match price with
  | None => Returned None
  | Some price =>
      let price := strip (replace "PKR" "" price) in
      if contains "Crore" price then
        x <- PyFloat.of_str (strip (replace "Crore" "" price)) ;;
        Returned (Some (PyFloat.mul x crore))
      else if contains "Lakh" price then
        x <- PyFloat.of_str (strip (replace "Lakh" "" price)) ;;
        Returned (Some (PyFloat.mul x lakh))
      else
        match PyFloat.of_str price with
        | Returned x => Returned (Some x)
        | Raised _ => Returned None
        end
  end.

(** [(\d+)\s*label] *)
Definition count_re (label : string) : Re.pattern :=
  [Re.Group (Re.Greedy isdigit 1); Re.Plain (Re.Greedy isspace 0);
   Re.Plain (Re.Chars label)].

(** The common body of [extract_bed] and [extract_bath]:
    [int(match.group(1)) if match else None]. *)
Definition extract_count (label : string) (features : option string) : option Z :=
  match features with
  | None => None
  | Some features =>
      match Re.search (count_re label) features with
      | Some (g1 :: _) => Some (int g1)
      | _ => None
      end
  end.

Definition extract_bed : option string -> option Z := extract_count "Bed".
Definition extract_bath : option string -> option Z := extract_count "Bath".

(** [Series.apply]: the function is called on the cells in order and the
    first exception leaves the call. *)
Fixpoint apply {A B} (f : A -> outcome B) (col : list A) : outcome (list B) :=
  match col with
  | [] => Returned []
  | a :: rest =>
      b <- f a ;;
      bs <- apply f rest ;;
      Returned (b :: bs)
  end.

(** The frame after the three derived columns have been added. *)
Record Staged : Type := stage
  { row : Raw.t;
    price_numeric : option PyFloat.float;
    bedrooms : option Z;
    bathrooms : option Z }.

(** [df.dropna(subset=["Price_numeric"])]: [None] and NaN are missing. *)
Definition notna (x : option PyFloat.float) : bool :=
  match x with
  | None => false
  | Some v => negb (PyFloat.isnan v)
  end.

(** [pd.to_numeric(col, errors='coerce').fillna(0).astype(int)]: a
    missing count becomes 0. The cell keeps the count as the integer it
    is. pandas stores the column in a machine integer, 32 or 64 bits wide
    by platform, after a passage through float64 when some count of the
    frame is missing; all of these hold a count below [2^31] as it is,
    and above that they may round or wrap it. What is stated about the
    counts of cleaned records is stated for frames whose counts are below
    [2^31] ([exact_counts]). *)
Definition fill_count (x : option Z) : Z :=
  match x with
  | None => 0
  | Some n => n
  end.

Definition select (r : Staged) : Clean.t :=
  {| Clean.Location := Raw.Location (row r);
     Clean.Price := Raw.Price (row r);
     Clean.Price_numeric :=
       match price_numeric r with Some v => v | None => S754_nan end;
     Clean.Bedrooms := fill_count (bedrooms r);
     Clean.Bathrooms := fill_count (bathrooms r) |}.

Definition clean_data (df : list Raw.t) : outcome (list Clean.t) :=
  prices <- apply price_to_number (map Raw.Price df) ;;
  let beds := map extract_bed (map Raw.Features df) in
  let baths := map extract_bath (map Raw.Features df) in
  let df := map (fun '(r, (p, (b, h))) => stage r p b h)
                (combine df (combine prices (combine beds baths))) in
  let df := filter (fun r => notna (price_numeric r)) df in
  Returned (map select df).

(** ** The filter step of [run_streamlit_app] *)

Definition eqb_cell (a b : option string) : bool :=
  match a, b with
  | None, None => true
  | Some x, Some y => String.eqb x y
  | _, _ => false
  end.

(** [Series.isin] *)
Definition isin (x : option string) (values : list (option string)) : bool :=
  existsb (eqb_cell x) values.

(** Lines 232-242. The two bounds of [price_range] are compared with the
    float column, so they are taken as floats. *)
Definition apply_filters (selected_locations : list (option string))
           (price_range : PyFloat.float * PyFloat.float)
           (df : list Clean.t) : list Clean.t :=
  match selected_locations with
  | _ :: _ =>
      filter (fun r =>
                (isin (Clean.Location r) selected_locations
                 && PyFloat.leb (fst price_range) (Clean.Price_numeric r)
                 && PyFloat.leb (Clean.Price_numeric r) (snd price_range))%bool) df
  | [] =>
      filter (fun r =>
                (PyFloat.leb (fst price_range) (Clean.Price_numeric r)
                 && PyFloat.leb (Clean.Price_numeric r) (snd price_range))%bool) df
  end.

(** ** The selection offered by default *)

(** [Series.unique]: the distinct values in order of first appearance. *)
Fixpoint unique_from (seen values : list (option string)) : list (option string) :=
  match values with
  | [] => []
  | x :: rest =>
      if isin x seen then unique_from seen rest
      else x :: unique_from (x :: seen) rest
  end.

Definition unique (values : list (option string)) : list (option string) :=
  unique_from [] values.

(** Lines 217-222: the [default] of the multiselect. *)
Definition default_locations (df : list Clean.t) : list (option string) :=
  let all_locations := unique (map Clean.Location df) in
  if Nat.ltb 5 (List.length all_locations) then firstn 5 all_locations
  else all_locations.

(** ** The request loop of [fetchData] *)

(** [str(page)] *)
Definition str (n : Z) : string := NilEmpty.string_of_int (Z.to_int n).

(** [range(start, stop)] *)
Definition range (start stop : Z) : list Z :=
  map (fun i => start + Z.of_nat i) (seq 0 (Z.to_nat (stop - start))).

(** Line 21 *)
Definition page_url (page : Z) : string :=
  "https://www.zameen.com/Homes/Karachi_Gulshan_e_Iqbal_Town-6858-"
  ++ str page ++ ".html".

(** The addresses the loop of lines 20-22 requests, in order. *)
Definition requested_urls (pages : Z) : list string :=
  map page_url (range 1 (pages + 1)).

(** ** Vocabulary of the statements *)

(** [mem c s]: the character [c] occurs in [s]. *)
Fixpoint mem (c : ascii) (s : string) : bool :=
  match s with
  | EmptyString => false
  | String a t => (Ascii.eqb c a || mem c t)%bool
  end.

(** [all cls s]: every character of [s] is in the class [cls]. *)
Fixpoint all (cls : ascii -> bool) (s : string) : bool :=
  match s with
  | EmptyString => true
  | String a t => (cls a && all cls t)%bool
  end.

(** Characters a decimal literal is made of. *)
Definition decimal_char (c : ascii) : bool :=
  (isdigit c || mem c "+-.eE")%bool.

(** Characters "inf", "infinity" and "nan" are made of, in either case,
    and the sign. *)
Definition special_char (c : ascii) : bool :=
  (mem c "+-" || mem (PyFloat.lower c) "infinitynan")%bool.

(** Characters below U+007F that [float] accepts nowhere in its
    argument. *)
Definition foreign (c : ascii) : bool :=
  (Nat.ltb (ord c) 127
   && negb (PyFloat.c_isspace c) && negb (Ascii.eqb c "_")
   && negb (decimal_char c) && negb (special_char c))%bool.

(** What a suffix branch of [price_to_number] computes from the text
    left after the suffix has been deleted. *)
Definition scaled (unit : PyFloat.float) (text : string) : outcome (option PyFloat.float) :=
  x <- PyFloat.of_str text ;; Returned (Some (PyFloat.mul x unit)).

(** The pattern of [count_re] read at the start of [s]: a non-empty run
    of digits [d], a run of spaces, then the label. *)
Definition count_at (label d s : string) : Prop :=
  exists w rest,
    s = d ++ w ++ label ++ rest /\
    d <> "" /\ all isdigit d = true /\ all isspace w = true.

(** The pattern of [count_re], read by maximal munch at the start of [s]:
    the whole run of digits, the whole run of spaces, then the label. *)
Definition count_here (label s : string) : option string :=
  let n := run_length isdigit s in
  let u := drop n s in
  if (Nat.leb 1 n && startswith label (drop (run_length isspace u) u))%bool
  then Some (take n s)
  else None.


(** The inclusion rule in the words of the specification. *)
Definition included (locations : list (option string))
           (priceMin priceMax : PyFloat.float) (r : Clean.t) : Prop :=
  (locations = [] \/ In (Clean.Location r) locations) /\
  PyFloat.leb priceMin (Clean.Price_numeric r) = true /\
  PyFloat.leb (Clean.Price_numeric r) priceMax = true.

(** What the cleaner computes for one row whose price gave [p]. *)
Definition cleaned (r : Raw.t) (p : option PyFloat.float) : Clean.t :=
  select (stage r p (extract_bed (Raw.Features r)) (extract_bath (Raw.Features r))).

(** The rows whose price can be used, with that price, in input order. *)
Fixpoint usable (df : list Raw.t) : list (Raw.t * PyFloat.float) :=
  match df with
  | [] => []
  | r :: rest =>
      match price_to_number (Raw.Price r) with
      | Returned (Some x) => if PyFloat.isnan x then usable rest else (r, x) :: usable rest
      | _ => usable rest
      end
  end.

(** The row test of the two index expressions, in one. *)
Definition keeps (selected_locations : list (option string))
           (lo hi : PyFloat.float) (r : Clean.t) : bool :=
  (match selected_locations with
   | [] => true
   | _ :: _ => isin (Clean.Location r) selected_locations
   end
   && PyFloat.leb lo (Clean.Price_numeric r)
   && PyFloat.leb (Clean.Price_numeric r) hi)%bool.

(** The row test of [dropna] on the derived price. *)
Definition kept (r : Raw.t) : bool :=
  match price_to_number (Raw.Price r) with
  | Returned p => notna p
  | Raised _ => false
  end.

(** The cleaned record of a row. *)
Definition clean_row (r : Raw.t) : Clean.t :=
  cleaned r (match price_to_number (Raw.Price r) with
             | Returned p => p
             | Raised _ => None
             end).

(** The cells of a row that [clean_data] reads. *)
Definition read_cells (r : Raw.t) : option string * option string * option string :=
  (Raw.Location r, Raw.Price r, Raw.Features r).

(** A count that every integer column holds as it is. *)
Definition small_count (x : option Z) : bool :=
  match x with
  | Some n => n <? 2 ^ 31
  | None => true
  end.

(** Every count read from the features of the frame is such a count. *)
Definition exact_counts (df : list Raw.t) : bool :=
  forallb (fun r => (small_count (extract_bed (Raw.Features r))
                     && small_count (extract_bath (Raw.Features r)))%bool) df.


(** The exponent and the mantissa of the float of a whole number of at
    most 53 binary digits: the number shifted up to 53 digits. *)
Definition expo (p : positive) : Z := Zpos (Pos.size p) - 53.

Definition mant (p : positive) : positive :=
  fst (shl_align p 0 (Zpos (Pos.size p) - 53)).

(** * Properties *)

(** ** Facts about the string operations *)

Section StrFacts.

Lemma startswith_app (t r : string) : startswith t (t ++ r) = true.
Proof.
  induction t as [|a t IH]; simpl; [reflexivity|].
  now rewrite Ascii.eqb_refl, IH.
Qed.

Lemma startswith_split (t s : string) :
  startswith t s = true -> s = t ++ drop (length t) s.
Proof.
  revert s; induction t as [|a t IH]; intros [|b s]; simpl; try easy.
  intros H. apply andb_prop in H as [Hab Ht].
  apply Ascii.eqb_eq in Hab. subst b. f_equal. now apply IH.
Qed.

Lemma contains_tail (t : string) (c : ascii) (s : string) :
  contains t s = true -> contains t (String c s) = true.
Proof. intros H. simpl. rewrite H. apply orb_true_r. Qed.

Lemma contains_start (t s : string) :
  startswith t s = true -> contains t s = true.
Proof. intros H. destruct s; simpl; now rewrite H. Qed.

Lemma contains_app (l t r : string) : contains t (l ++ t ++ r) = true.
Proof.
  induction l as [|c l IH]; simpl.
  - apply contains_start, startswith_app.
  - rewrite IH. apply orb_true_r.
Qed.

Lemma contains_empty (t : string) :
  contains t "" = true -> t = "".
Proof. destruct t; simpl; [reflexivity | discriminate]. Qed.

(** A text that does not contain the first character of [t] does not
    contain [t]. *)
Lemma contains_mem (a : ascii) (t s : string) :
  contains (String a t) s = true -> mem a s = true.
Proof.
  induction s as [|b s IH]; simpl; [discriminate|].
  intros H. apply orb_prop in H as [H|H].
  - apply andb_prop in H as [H _]. now rewrite H.
  - rewrite (IH H). apply orb_true_r.
Qed.

Lemma drop_nil (n : nat) : drop n "" = "".
Proof. now destruct n. Qed.

Lemma take_drop (n : nat) (s : string) : take n s ++ drop n s = s.
Proof.
  revert s; induction n as [|n IH]; intros [|c s]; simpl; try reflexivity.
  now rewrite IH.
Qed.

Lemma length_drop (n : nat) (s : string) :
  length (drop n s) = (length s - n)%nat.
Proof.
  revert s; induction n as [|n IH]; intros [|c s]; simpl; try reflexivity.
  apply IH.
Qed.

Lemma take_run_all (cls : ascii -> bool) (s : string) :
  all cls (take (run_length cls s) s) = true.
Proof.
  induction s as [|c s IH]; simpl; [reflexivity|].
  destruct (cls c) eqn:E; simpl; [now rewrite E | reflexivity].
Qed.

Lemma all_take (cls : ascii -> bool) (n : nat) (s : string) :
  all cls s = true -> all cls (take n s) = true.
Proof.
  revert s; induction n as [|n IH]; intros [|c s]; simpl; try reflexivity.
  intros H. apply andb_prop in H as [-> H]. now apply IH.
Qed.

Lemma run_length_app (cls : ascii -> bool) (d r : string) :
  all cls d = true ->
  run_length cls (d ++ r) = (length d + run_length cls r)%nat.
Proof.
  induction d as [|c d IH]; simpl; [reflexivity|].
  intros H. apply andb_prop in H as [-> H]. now rewrite IH.
Qed.

Lemma drop_app (d r : string) : drop (length d) (d ++ r) = r.
Proof. induction d; simpl; [now destruct r | assumption]. Qed.

Lemma take_app (d r : string) : take (length d) (d ++ r) = d.
Proof. induction d; simpl; [now destruct r | now f_equal]. Qed.

(** The skip counter of [replace_from] only postpones the scan. *)
Lemma replace_from_skip (old new : string) (k : nat) (s : string) :
  replace_from old new k s = replace old new (drop k s).
Proof.
  revert k; induction s as [|c s IH]; intros [|k]; try reflexivity.
  simpl. apply IH.
Qed.

Lemma replace_match (o : ascii) (old new s : string) :
  startswith (String o old) s = true ->
  replace (String o old) new s =
  new ++ replace (String o old) new (drop (length (String o old)) s).
Proof.
  intros H. destruct s as [|c s]; [discriminate|].
  unfold replace at 1. cbn [replace_from]. rewrite H.
  now rewrite replace_from_skip.
Qed.

Lemma replace_nomatch (old new : string) (c : ascii) (s : string) :
  startswith old (String c s) = false ->
  replace old new (String c s) = String c (replace old new s).
Proof. intros H. unfold replace. cbn [replace_from]. now rewrite H. Qed.

End StrFacts.

(** ** A token survives the deletion of another token and the strip *)

Section TokenSurvives.

(** [t] is the token looked for; [o :: old] is the token deleted. *)
Variables (a o : ascii) (t old : string).

Hypothesis head_not_deleted : mem a (String o old) = false.
Hypothesis first_not_in_token : mem o (String a t) = false.

Lemma startswith_drop_old (p s : string) :
  mem a p = false ->
  startswith p s = true ->
  contains (String a t) s = true ->
  contains (String a t) (drop (length p) s) = true.
Proof.
  revert s; induction p as [|b p IH]; intros s Hm Hp Hc; [exact Hc|].
  destruct s as [|c s]; [discriminate|].
  cbn [mem] in Hm. apply orb_false_elim in Hm as [Hab Hm].
  cbn [startswith] in Hp. apply andb_prop in Hp as [Hbc Hp].
  apply Ascii.eqb_eq in Hbc. subst c.
  cbn [contains startswith] in Hc. rewrite Hab in Hc. cbn in Hc.
  cbn [length drop]. now apply IH.
Qed.

Lemma startswith_replace (p s : string) :
  mem o p = false ->
  startswith p s = true ->
  startswith p (replace (String o old) "" s) = true.
Proof.
  revert s; induction p as [|b p IH]; intros s Hm Hp; [reflexivity|].
  destruct s as [|c s]; [discriminate|].
  cbn [mem] in Hm. apply orb_false_elim in Hm as [Hob Hm].
  cbn [startswith] in Hp. apply andb_prop in Hp as [Hbc Hp].
  apply Ascii.eqb_eq in Hbc. subst c.
  rewrite replace_nomatch by (cbn [startswith]; now rewrite Hob).
  cbn [startswith]. rewrite Ascii.eqb_refl. now apply IH.
Qed.

Lemma contains_replace_fuel (n : nat) (s : string) :
  (length s <= n)%nat ->
  contains (String a t) s = true ->
  contains (String a t) (replace (String o old) "" s) = true.
Proof.
  revert s; induction n as [|n IH]; intros s Hn Hc.
  - destruct s; [discriminate | simpl in Hn; lia].
  - destruct s as [|c s]; [discriminate|].
    destruct (startswith (String o old) (String c s)) eqn:Hs.
    + rewrite replace_match by exact Hs. cbn [append].
      apply IH.
      * rewrite length_drop. cbn [length] in *. lia.
      * now apply startswith_drop_old.
    + rewrite replace_nomatch by exact Hs.
      cbn [contains] in Hc. apply orb_prop in Hc as [Hc|Hc].
      * apply contains_start.
        rewrite <- (replace_nomatch (String o old) "" c s Hs).
        now apply startswith_replace.
      * apply contains_tail, IH; [cbn [length] in Hn; lia | exact Hc].
Qed.

Lemma contains_replace (s : string) :
  contains (String a t) s = true ->
  contains (String a t) (replace (String o old) "" s) = true.
Proof. apply (contains_replace_fuel (length s)). lia. Qed.

Hypothesis token_no_space : all (fun c => negb (isspace c)) (String a t) = true.

Lemma contains_lstrip (s : string) :
  contains (String a t) s = true -> contains (String a t) (lstrip s) = true.
Proof.
  induction s as [|c s IH]; intros Hc; [exact Hc|].
  cbn [lstrip]. destruct (isspace c) eqn:Hsp; [|exact Hc].
  apply IH. cbn [contains startswith] in Hc.
  cbn [all] in token_no_space. apply andb_prop in token_no_space as [Ha _].
  destruct (Ascii.eqb a c) eqn:Hac; [|exact Hc].
  apply Ascii.eqb_eq in Hac. subst c. now rewrite Hsp in Ha.
Qed.

Lemma startswith_rstrip (p s : string) :
  all (fun c => negb (isspace c)) p = true ->
  startswith p s = true -> startswith p (rstrip s) = true.
Proof.
  revert s; induction p as [|b p IH]; intros s Hall Hp; [reflexivity|].
  destruct s as [|c s]; [discriminate|].
  cbn [all] in Hall. apply andb_prop in Hall as [Hb Hall].
  cbn [startswith] in Hp. apply andb_prop in Hp as [Hbc Hp].
  apply Ascii.eqb_eq in Hbc. subst c.
  specialize (IH s Hall Hp). cbn [rstrip].
  destruct (rstrip s) as [|c r].
  - destruct p; [|discriminate].
    apply negb_true_iff in Hb. rewrite Hb. cbn. now rewrite Ascii.eqb_refl.
  - cbn [startswith]. now rewrite Ascii.eqb_refl.
Qed.

Lemma contains_rstrip (s : string) :
  contains (String a t) s = true -> contains (String a t) (rstrip s) = true.
Proof.
  induction s as [|c s IH]; intros Hc; [exact Hc|].
  cbn [contains] in Hc. apply orb_prop in Hc as [Hc|Hc].
  - apply contains_start, startswith_rstrip; assumption.
  - specialize (IH Hc). cbn [rstrip].
    destruct (rstrip s) as [|c' r]; [discriminate|].
    now apply contains_tail.
Qed.

Lemma contains_strip (s : string) :
  contains (String a t) s = true -> contains (String a t) (strip s) = true.
Proof. intros Hc. unfold strip. now apply contains_rstrip, contains_lstrip. Qed.

End TokenSurvives.

(** ** What [float] refuses *)

Section FloatLiteral.

Import PyFloat.

Ltac each_char c := destruct c as [[] [] [] [] [] [] [] []].

Lemma all_mem (cls : ascii -> bool) (c : ascii) (s : string) :
  all cls s = true -> mem c s = true -> cls c = true.
Proof.
  induction s as [|h s IH]; cbn; [discriminate|].
  intros Ha Hm. apply andb_prop in Ha as [Hh Ha].
  apply orb_prop in Hm as [Hm|Hm]; [|now apply IH].
  apply Ascii.eqb_eq in Hm. now subst.
Qed.

Lemma mem_take_drop (c : ascii) (n : nat) (s : string) :
  mem c s = true -> mem c (take n s) = true \/ mem c (drop n s) = true.
Proof.
  revert s; induction n as [|n IH]; intros [|h s] Hm; cbn [take drop];
    try (now right).
  cbn [mem] in *. apply orb_prop in Hm as [Hm|Hm].
  - left. now rewrite Hm.
  - destruct (IH s Hm) as [H|H]; [left; rewrite H; apply orb_true_r | now right].
Qed.

Lemma mem_run (cls : ascii -> bool) (c : ascii) (s : string) :
  mem c s = true ->
  cls c = true \/ mem c (drop (run_length cls s) s) = true.
Proof.
  intros Hm. destruct (mem_take_drop c (run_length cls s) s Hm) as [H|H];
    [left | now right].
  exact (all_mem cls c _ (take_run_all cls s) H).
Qed.

Lemma digit_decimal (c : ascii) : isdigit c = true -> decimal_char c = true.
Proof. unfold decimal_char. now intros ->. Qed.

Lemma sign_decimal (c : ascii) : mem c "+-" = true -> decimal_char c = true.
Proof. each_char c; vm_compute; congruence. Qed.

Lemma sign_special (c : ascii) : mem c "+-" = true -> special_char c = true.
Proof. unfold special_char. now intros ->. Qed.

Lemma take_sign_mem (s t : string) (neg : bool) (c : ascii) :
  take_sign s = (neg, t) -> mem c s = true ->
  mem c "+-" = true \/ mem c t = true.
Proof.
  destruct s as [|h s]; [discriminate 2|].
  each_char h; cbn [take_sign]; intros H Hm; injection H as <- <-;
    try (right; exact Hm);
    cbn [mem] in *; apply orb_prop in Hm as [Hm|Hm];
    try (now right); left; apply Ascii.eqb_eq in Hm; subst c; reflexivity.
Qed.

Lemma parse_fraction_mem (s fp rest : string) (c : ascii) :
  parse_fraction s = (fp, rest) -> mem c s = true ->
  decimal_char c = true \/ mem c rest = true.
Proof.
  destruct s as [|h s]; [discriminate 2|].
  each_char h; cbn [parse_fraction]; intros H Hm; injection H as <- <-;
    try (right; exact Hm).
  cbn [mem] in Hm. apply orb_prop in Hm as [Hm|Hm].
  - left. apply Ascii.eqb_eq in Hm. now subst c.
  - destruct (mem_run isdigit c s Hm) as [H|H];
      [left; now apply digit_decimal | now right].
Qed.

Lemma parse_exponent_mem (s : string) (e : Z) (c : ascii) :
  parse_exponent s = (e, "") -> mem c s = true -> decimal_char c = true.
Proof.
  destruct s as [|h s]; [discriminate 2|]. cbn [parse_exponent].
  destruct (is_e h) eqn:Hh; [|discriminate].
  destruct (take_sign s) as [neg t] eqn:Hs.
  destruct (run_length isdigit t) as [|n] eqn:Hn; [discriminate|].
  intros H Hm. injection H as _ Hrest.
  cbn [mem] in Hm. apply orb_prop in Hm as [Hm|Hm].
  - apply Ascii.eqb_eq in Hm. subst c. revert Hh. clear.
    each_char h; vm_compute; congruence.
  - destruct (take_sign_mem s t neg c Hs Hm) as [H|H];
      [now apply sign_decimal|].
    destruct (mem_run isdigit c t H) as [H'|H']; [now apply digit_decimal|].
    assert (Hend : drop (run_length isdigit t) t = "") by (rewrite Hn; exact Hrest).
    rewrite Hend in H'. discriminate.
Qed.

Lemma strtod_mem (s : string) (x : float) (c : ascii) :
  strtod s = Some (x, "") -> mem c s = true -> decimal_char c = true.
Proof.
  unfold strtod. destruct (take_sign s) as [neg s1] eqn:Hs.
  destruct (parse_fraction _) as [fp s3] eqn:Hf.
  destruct (_ ++ fp); [discriminate|].
  destruct (parse_exponent s3) as [e rest] eqn:He.
  intros H Hm. injection H as _ ->.
  destruct (take_sign_mem s s1 neg c Hs Hm) as [H|H]; [now apply sign_decimal|].
  destruct (mem_run isdigit c s1 H) as [H1|H1]; [now apply digit_decimal|].
  destruct (parse_fraction_mem _ fp s3 c Hf H1) as [H2|H2]; [exact H2|].
  exact (parse_exponent_mem s3 e c He H2).
Qed.

Lemma imatch_mem (pat s : string) (c : ascii) :
  imatch pat s = true -> mem c (take (length pat) s) = true ->
  mem (lower c) pat = true.
Proof.
  revert s; induction pat as [|a pat IH]; intros [|b s]; cbn; try discriminate.
  intros H Hm. apply andb_prop in H as [Hab H].
  apply orb_prop in Hm as [Hm|Hm].
  - apply Ascii.eqb_eq in Hm, Hab. subst. now rewrite Ascii.eqb_refl.
  - rewrite (IH s H Hm). apply orb_true_r.
Qed.

Lemma word_special (word : string) (c : ascii) :
  (forall x, mem x word = true -> mem x "infinitynan" = true) ->
  mem (lower c) word = true -> special_char c = true.
Proof.
  intros Hsub H. unfold special_char. rewrite (Hsub _ H). apply orb_true_r.
Qed.

Lemma letters_inf (x : ascii) : mem x "inf" = true -> mem x "infinitynan" = true.
Proof. each_char x; vm_compute; congruence. Qed.

Lemma letters_inity (x : ascii) : mem x "inity" = true -> mem x "infinitynan" = true.
Proof. each_char x; vm_compute; congruence. Qed.

Lemma letters_nan (x : ascii) : mem x "nan" = true -> mem x "infinitynan" = true.
Proof. each_char x; vm_compute; congruence. Qed.

Lemma parse_inf_or_nan_mem (s : string) (x : float) (c : ascii) :
  parse_inf_or_nan s = Some (x, "") -> mem c s = true -> special_char c = true.
Proof.
  unfold parse_inf_or_nan. destruct (take_sign s) as [neg t] eqn:Hs.
  intros H Hm.
  destruct (take_sign_mem s t neg c Hs Hm) as [Hc|Hc]; [now apply sign_special|].
  clear Hs Hm. destruct (imatch "inf" t) eqn:Hi.
  - destruct (mem_take_drop c 3 t Hc) as [H1|H1].
    + exact (word_special "inf" c letters_inf (imatch_mem "inf" t c Hi H1)).
    + destruct (imatch "inity" (drop 3 t)) eqn:Hy.
      * assert (Hend : drop 5 (drop 3 t) = "") by congruence.
        destruct (mem_take_drop c 5 _ H1) as [H2|H2].
        -- exact (word_special "inity" c letters_inity (imatch_mem "inity" _ c Hy H2)).
        -- rewrite Hend in H2. discriminate.
      * assert (Hend : drop 3 t = "") by congruence.
        rewrite Hend in H1. discriminate.
  - destruct (imatch "nan" t) eqn:Hn; [|discriminate].
    assert (Hend : drop 3 t = "") by congruence.
    destruct (mem_take_drop c 3 t Hc) as [H1|H1].
    + exact (word_special "nan" c letters_nan (imatch_mem "nan" t c Hn H1)).
    + rewrite Hend in H1. discriminate.
Qed.

Lemma foreign_inv (c : ascii) :
  foreign c = true ->
  Nat.ltb (ord c) 127 = true /\ c_isspace c = false /\ Ascii.eqb c "_" = false /\
  decimal_char c = false /\ special_char c = false.
Proof.
  unfold foreign. rewrite !andb_true_iff, !negb_true_iff. tauto.
Qed.

Lemma to_ascii_foreign (s : string) (c : ascii) :
  foreign c = true -> mem c s = true ->
  exists c', foreign c' = true /\ mem c' (to_ascii s) = true.
Proof.
  intros Hf. destruct (foreign_inv c Hf) as (Hlt & _).
  induction s as [|h s IH]; cbn [mem to_ascii]; [discriminate|].
  intros Hm. destruct (Nat.ltb (ord h) 127) eqn:Hh.
  - apply orb_prop in Hm as [Hm|Hm].
    + exists c. split; [exact Hf|]. cbn [mem]. now rewrite Hm.
    + destruct (IH Hm) as (c' & Hf' & Hm'). exists c'. split; [exact Hf'|].
      cbn [mem]. rewrite Hm'. apply orb_true_r.
  - destruct (isspace h).
    + apply orb_prop in Hm as [Hm|Hm].
      * apply Ascii.eqb_eq in Hm. subst h. congruence.
      * destruct (IH Hm) as (c' & Hf' & Hm'). exists c'. split; [exact Hf'|].
        cbn [mem]. rewrite Hm'. apply orb_true_r.
    + exists "?"%char. split; reflexivity.
Qed.

Lemma c_lstrip_mem (s : string) (c : ascii) :
  c_isspace c = false -> mem c s = true -> mem c (c_lstrip s) = true.
Proof.
  intros Hc. induction s as [|h s IH]; cbn [c_lstrip]; [trivial|].
  intros Hm. destruct (c_isspace h) eqn:Hh; [|exact Hm].
  apply IH. cbn [mem] in Hm. apply orb_prop in Hm as [Hm|Hm]; [|exact Hm].
  apply Ascii.eqb_eq in Hm. subst h. congruence.
Qed.

Lemma c_rstrip_mem (s : string) (c : ascii) :
  c_isspace c = false -> mem c s = true -> mem c (c_rstrip s) = true.
Proof.
  intros Hc. induction s as [|h s IH]; cbn [c_rstrip]; [trivial|].
  intros Hm. cbn [mem] in Hm. apply orb_prop in Hm as [Hm|Hm].
  - assert (Hh : c_isspace h = false)
      by (apply Ascii.eqb_eq in Hm as Hch; now subst h).
    destruct (c_rstrip s); [rewrite Hh|]; cbn [mem]; now rewrite Hm.
  - specialize (IH Hm). destruct (c_rstrip s) as [|h' r]; [discriminate|].
    cbn [mem] in *. rewrite IH. apply orb_true_r.
Qed.

Lemma drop_underscores_mem (s u : string) (prev c : ascii) :
  drop_underscores prev s = Some u -> Ascii.eqb c "_" = false ->
  mem c s = true -> mem c u = true.
Proof.
  intros H Hc. revert prev u H.
  induction s as [|h s IH]; intros prev u H Hm; [discriminate|].
  cbn [drop_underscores] in H. cbn [mem] in Hm.
  destruct (Ascii.eqb h "_") eqn:Hh.
  - destruct (isdigit prev); [|discriminate].
    apply (IH h u H). apply orb_prop in Hm as [Hm|Hm]; [|exact Hm].
    apply Ascii.eqb_eq in Hm. subst h. congruence.
  - destruct (Ascii.eqb prev "_" && negb (isdigit h))%bool; [discriminate|].
    destruct (drop_underscores h s) as [u'|] eqn:Hu; [|discriminate].
    injection H as <-. cbn [mem].
    apply orb_prop in Hm as [Hm|Hm]; [now rewrite Hm|].
    rewrite (IH h u' Hu Hm). apply orb_true_r.
Qed.

(** A text with a foreign character in it is no float. *)
Lemma of_str_foreign (s : string) (c : ascii) :
  foreign c = true -> mem c s = true -> of_str s = Raised ValueError.
Proof.
  intros Hf Hm. destruct (to_ascii_foreign s c Hf Hm) as (c' & Hf' & Hm').
  destruct (foreign_inv c' Hf') as (_ & Hsp & Hus & Hdec & Hspec).
  apply (c_lstrip_mem _ _ Hsp), (c_rstrip_mem _ _ Hsp) in Hm'.
  unfold of_str.
  destruct (drop_underscores zero _) as [u|] eqn:Hu; [|reflexivity].
  pose proof (drop_underscores_mem _ u zero c' Hu Hus Hm') as Hmu.
  destruct (strtod u) as [[x rest]|] eqn:Hst.
  - destruct rest; [|reflexivity].
    rewrite (strtod_mem u x c' Hst Hmu) in Hdec. discriminate.
  - destruct (parse_inf_or_nan u) as [[x rest]|] eqn:Hpi; [|reflexivity].
    destruct rest; [|reflexivity].
    rewrite (parse_inf_or_nan_mem u x c' Hpi Hmu) in Hspec. discriminate.
Qed.

End FloatLiteral.

(** ** [price_to_number] *)

Section PriceToNumber.

Lemma scaled_not_none (unit : PyFloat.float) (text : string) :
  scaled unit text <> Returned None.
Proof. unfold scaled. destruct (PyFloat.of_str text); discriminate. Qed.

Lemma crore_branch (s : string) :
  contains "Crore" (strip (replace "PKR" "" s)) = true ->
  price_to_number (Some s) =
  scaled crore (strip (replace "Crore" "" (strip (replace "PKR" "" s)))).
Proof. intros H. unfold price_to_number. now rewrite H. Qed.

Lemma lakh_branch (s : string) :
  contains "Crore" (strip (replace "PKR" "" s)) = false ->
  contains "Lakh" (strip (replace "PKR" "" s)) = true ->
  price_to_number (Some s) =
  scaled lakh (strip (replace "Lakh" "" (strip (replace "PKR" "" s)))).
Proof. intros H1 H2. unfold price_to_number. now rewrite H1, H2. Qed.

Lemma plain_branch (s : string) :
  contains "Crore" (strip (replace "PKR" "" s)) = false ->
  contains "Lakh" (strip (replace "PKR" "" s)) = false ->
  price_to_number (Some s) =
  match PyFloat.of_str (strip (replace "PKR" "" s)) with
  | Returned x => Returned (Some x)
  | Raised _ => Returned None
  end.
Proof. intros H1 H2. unfold price_to_number. now rewrite H1, H2. Qed.





(** The only exception is the one [float] raises in a suffix branch. *)
Lemma price_to_number_raises (s : string) (e : exn) :
  price_to_number (Some s) = Raised e ->
  (contains "Crore" (strip (replace "PKR" "" s)) = true \/
   contains "Lakh" (strip (replace "PKR" "" s)) = true) /\ e = ValueError.
Proof.
  intros H. split; [|now destruct e].
  destruct (contains "Crore" (strip (replace "PKR" "" s))) eqn:H1; [now left|].
  destruct (contains "Lakh" (strip (replace "PKR" "" s))) eqn:H2; [now right|].
  rewrite (plain_branch s H1 H2) in H.
  destruct (PyFloat.of_str _); discriminate.
Qed.

End PriceToNumber.

(** C1: a suffix branch calls [float] outside the [try], so a text that
    holds "Crore" or "Lakh" next to something that is no number leaves
    [price_to_number] with a [ValueError] instead of [None]. *)
Theorem price_to_number_suffix_raises :
  price_to_number (Some "PKR abc Crore") = Raised ValueError /\
  price_to_number (Some "PKR 12,5 Lakh") = Raised ValueError /\
  price_to_number (Some "PKR abc") = Returned None.
Proof. repeat split; vm_compute; reflexivity. Qed.

(** C3: the five sample prices: 1.5 Crore is 15,000,000, 50 Lakh is
    5,000,000, a plain 900000 is itself, and "N/A" and an absent price
    give [None]. *)
Theorem price_to_number_samples :
  price_to_number (Some "PKR 1.5 Crore") = Returned (Some (PyFloat.of_int 15000000)) /\
  price_to_number (Some "PKR 50 Lakh") = Returned (Some (PyFloat.of_int 5000000)) /\
  price_to_number (Some "PKR 900000") = Returned (Some (PyFloat.of_int 900000)) /\
  price_to_number (Some "N/A") = Returned None /\
  price_to_number None = Returned None.
Proof. repeat split; vm_compute; reflexivity. Qed.




(** ** The search of [(\d+)\s*label] *)

Section Search.

Lemma digit_not_space (c : ascii) : isdigit c = true -> isspace c = false.
Proof.
  destruct c as [[] [] [] [] [] [] [] []]; vm_compute; congruence.
Qed.

Lemma run_drop_head (cls : ascii -> bool) (s : string) (j : nat) :
  (j < run_length cls s)%nat ->
  exists c u, drop j s = String c u /\ cls c = true.
Proof.
  revert j; induction s as [|c s IH]; intros j Hj; cbn in Hj; [lia|].
  destruct (cls c) eqn:E; [|lia].
  destruct j as [|j]; [now exists c, s|].
  cbn [drop]. apply IH. lia.
Qed.

Lemma run_length_stop (cls : ascii -> bool) (w : string) (c : ascii) (r : string) :
  all cls w = true -> cls c = false ->
  run_length cls (w ++ String c r) = length w.
Proof.
  intros Hw Hc. rewrite run_length_app by exact Hw. cbn. rewrite Hc. lia.
Qed.

(** A continuation that refuses every text starting in the class leaves
    a greedy repetition its whole run, or nothing. *)
Lemma backtrack_below (cls : ascii -> bool) (k : string -> option (list string))
      (n : Re.node) (min : nat) (s : string) (j : nat) :
  (forall c u, cls c = true -> k (String c u) = None) ->
  (j < run_length cls s)%nat ->
  Re.backtrack k n min s j = None.
Proof.
  intros Hk. induction j as [|j IH]; intros Hj; cbn [Re.backtrack];
    destruct (Nat.ltb _ min); try reflexivity;
    destruct (run_drop_head cls s _ Hj) as (c & u & -> & Hc);
    rewrite (Hk c u Hc); [reflexivity | apply IH; lia].
Qed.

Lemma backtrack_greedy (cls : ascii -> bool) (k : string -> option (list string))
      (n : Re.node) (min : nat) (s : string) :
  (forall c u, cls c = true -> k (String c u) = None) ->
  Re.backtrack k n min s (run_length cls s) =
  if Nat.ltb (run_length cls s) min then None
  else option_map (Re.capture n (take (run_length cls s) s))
                  (k (drop (run_length cls s) s)).
Proof.
  intros Hk. destruct (run_length cls s) as [|j] eqn:E; cbn [Re.backtrack];
    destruct (Nat.ltb _ min); try reflexivity;
    destruct (k (drop _ s)); try reflexivity.
  cbn. apply (backtrack_below cls); [exact Hk | lia].
Qed.

Lemma match_here_greedy (n : Re.node) (rest : Re.pattern)
      (cls : ascii -> bool) (min : nat) (s : string) :
  Re.piece_of n = Re.Greedy cls min ->
  Re.match_here (n :: rest) s =
  Re.backtrack (Re.match_here rest) n min s (run_length cls s).
Proof. intros H. destruct n; cbn in H; subst; reflexivity. Qed.

Variables (a : ascii) (l : string).
Hypothesis label_not_digit : isdigit a = false.
Hypothesis label_not_space : isspace a = false.

Let label : string := String a l.

Lemma label_refuses (cls : ascii -> bool) (c : ascii) (u : string) :
  cls a = false -> cls c = true -> startswith label (String c u) = false.
Proof.
  intros Ha Hc. cbn. destruct (Ascii.eqb a c) eqn:E; [|reflexivity].
  apply Ascii.eqb_eq in E. congruence.
Qed.

Lemma match_label (s : string) :
  Re.match_here [Re.Plain (Re.Chars label)] s =
  if startswith label s then Some [] else None.
Proof. cbn [Re.match_here Re.piece_of]. now destruct (startswith label s). Qed.

Lemma match_spaces_label (s : string) :
  Re.match_here [Re.Plain (Re.Greedy isspace 0); Re.Plain (Re.Chars label)] s =
  if startswith label (drop (run_length isspace s) s) then Some [] else None.
Proof.
  rewrite (match_here_greedy _ _ isspace 0 s) by reflexivity.
  rewrite (backtrack_greedy isspace).
  - rewrite match_label. cbn [Nat.ltb Nat.leb].
    destruct (startswith label (drop (run_length isspace s) s)); reflexivity.
  - intros c u Hc. rewrite match_label.
    now rewrite (label_refuses isspace c u label_not_space Hc).
Qed.

(** The backtracking matcher agrees with maximal munch. *)
Lemma match_count_re (s : string) :
  Re.match_here (count_re label) s =
  option_map (fun d => [d]) (count_here label s).
Proof.
  unfold count_re. rewrite (match_here_greedy _ _ isdigit 1 s) by reflexivity.
  rewrite (backtrack_greedy isdigit).
  - unfold count_here. rewrite match_spaces_label.
    destruct (run_length isdigit s) as [|n]; [reflexivity|].
    cbn [Nat.ltb Nat.leb andb].
    now destruct (startswith label _).
  - intros c u Hc. rewrite match_spaces_label.
    cbn [run_length]. rewrite (digit_not_space c Hc). cbn [drop].
    now rewrite (label_refuses isdigit c u label_not_digit Hc).
Qed.

Lemma count_here_sound (s d : string) :
  count_here label s = Some d -> count_at label d s.
Proof.
  unfold count_here. intros H.
  destruct (Nat.leb 1 (run_length isdigit s)) eqn:Hn; [|discriminate].
  destruct (startswith label _) eqn:Hl; [|discriminate].
  injection H as <-. apply startswith_split in Hl.
  exists (take (run_length isspace (drop (run_length isdigit s) s))
               (drop (run_length isdigit s) s)).
  eexists. repeat split.
  - rewrite <- Hl. now rewrite !take_drop.
  - apply Nat.leb_le in Hn. destruct s as [|c s]; cbn in *; [lia|].
    destruct (isdigit c); [discriminate | lia].
  - apply take_run_all.
  - apply take_run_all.
Qed.

Lemma count_here_complete (s d : string) :
  count_at label d s -> count_here label s = Some d.
Proof.
  intros (w & rest & -> & Hd & Hdig & Hsp). unfold count_here.
  assert (Hrun : run_length isdigit (d ++ w ++ label ++ rest) = length d).
  { rewrite run_length_app by exact Hdig.
    destruct w as [|c w]; cbn.
    - rewrite label_not_digit. lia.
    - cbn in Hsp. apply andb_prop in Hsp as [Hc _].
      destruct (isdigit c) eqn:E; [|lia].
      apply digit_not_space in E. congruence. }
  rewrite Hrun, drop_app, take_app.
  change (label ++ rest) with (String a (l ++ rest)).
  rewrite (run_length_stop isspace w a (l ++ rest) Hsp label_not_space).
  rewrite drop_app.
  change (String a (l ++ rest)) with (label ++ rest).
  rewrite startswith_app.
  destruct d; [congruence | reflexivity].
Qed.

Lemma count_here_iff (s d : string) :
  count_here label s = Some d <-> count_at label d s.
Proof. split; [apply count_here_sound | apply count_here_complete]. Qed.

End Search.

(** ** [extract_bed] and [extract_bath] *)

Section ExtractCount.

Lemma search_first (p : Re.pattern) (s : string) (g : list string) :
  Re.search p s = Some g <->
  exists i, Re.match_here p (drop i s) = Some g /\
            forall j, (j < i)%nat -> Re.match_here p (drop j s) = None.
Proof.
  induction s as [|c s IH]; cbn [Re.search].
  - split.
    + intros H. exists 0%nat. split; [|intros j Hj; lia].
      cbn [drop]. now destruct (Re.match_here p "").
    + intros (i & H & _). rewrite drop_nil in H. now rewrite H.
  - destruct (Re.match_here p (String c s)) as [g'|] eqn:E; split.
    + intros H. injection H as <-. exists 0%nat. split; [exact E | intros j Hj; lia].
    + intros ([|i] & H & Hlt).
      * cbn [drop] in H. congruence.
      * specialize (Hlt 0%nat ltac:(lia)). cbn [drop] in Hlt. congruence.
    + intros H. apply IH in H as (i & H & Hlt). exists (S i). split; [exact H|].
      intros [|j] Hj; [exact E | apply Hlt; lia].
    + intros ([|i] & H & Hlt).
      * cbn [drop] in H. congruence.
      * apply IH. exists i. split; [exact H|].
        intros j Hj. apply (Hlt (S j)). lia.
Qed.

Lemma contains_drop (t : string) (i : nat) (s : string) :
  contains t (drop i s) = true -> contains t s = true.
Proof.
  revert s; induction i as [|i IH]; intros [|c s] H; try exact H.
  apply contains_tail, IH, H.
Qed.

Lemma contains_skip (t p s : string) :
  contains t s = true -> contains t (p ++ s) = true.
Proof.
  intros H. induction p as [|c p IH]; [exact H|].
  now apply contains_tail.
Qed.

Lemma count_at_contains (label d s : string) :
  count_at label d s -> contains label s = true.
Proof.
  intros (w & rest & -> & _). apply contains_skip, contains_app.
Qed.

Lemma digits_value_nonneg (s : string) (acc : Z) :
  all isdigit s = true -> 0 <= acc -> 0 <= digits_value acc s.
Proof.
  revert acc; induction s as [|c s IH]; intros acc Hs Hacc; [exact Hacc|].
  cbn in Hs. apply andb_prop in Hs as [Hc Hs].
  cbn [digits_value]. apply IH; [exact Hs|].
  unfold isdigit, between in Hc. apply andb_prop in Hc as [Hlo _].
  apply Nat.leb_le in Hlo. lia.
Qed.

Variables (a : ascii) (l : string).
Hypothesis label_not_digit : isdigit a = false.
Hypothesis label_not_space : isspace a = false.

Let label : string := String a l.

(** [extract_count] returns the number of the leftmost place where the
    pattern can be read, and [None] when there is no such place. *)
Lemma extract_count_some (s : string) (n : Z) :
  extract_count label (Some s) = Some n <->
  exists i d,
    count_at label d (drop i s) /\
    (forall j d', (j < i)%nat -> ~ count_at label d' (drop j s)) /\
    n = int d.
Proof.
  unfold extract_count. split.
  - destruct (Re.search (count_re label) s) as [g|] eqn:E; [|discriminate].
    apply search_first in E as (i & Hi & Hlt).
    unfold label in Hi. rewrite match_count_re in Hi by assumption.
    destruct (count_here (String a l) (drop i s)) as [d|] eqn:Hd; [|discriminate].
    injection Hi as <-. intros H. injection H as <-.
    exists i, d. split; [|split; [|reflexivity]].
    + apply count_here_sound, Hd.
    + intros j d' Hj Hc. specialize (Hlt j Hj).
      unfold label in Hlt. rewrite match_count_re in Hlt by assumption.
      apply (count_here_complete a l) in Hc; try assumption.
      rewrite Hc in Hlt. discriminate.
  - intros (i & d & Hc & Hlt & ->).
    assert (E : Re.search (count_re label) s = Some [d]).
    { apply search_first. exists i. split.
      - unfold label. rewrite match_count_re by assumption.
        now rewrite (count_here_complete a l label_not_digit label_not_space _ _ Hc).
      - intros j Hj. unfold label. rewrite match_count_re by assumption.
        destruct (count_here (String a l) (drop j s)) as [d'|] eqn:Hd; [|reflexivity].
        apply count_here_sound in Hd. now apply Hlt in Hd. }
    now rewrite E.
Qed.

Lemma extract_count_no_label (s : string) :
  contains label s = false -> extract_count label (Some s) = None.
Proof.
  intros H. destruct (extract_count label (Some s)) as [n|] eqn:E; [|reflexivity].
  apply extract_count_some in E as (i & d & Hc & _).
  apply count_at_contains, contains_drop in Hc. congruence.
Qed.

(** The label may be followed by anything: the pattern asks for no word
    boundary. *)
Lemma extract_count_prefix (d w tail : string) :
  d <> "" -> all isdigit d = true -> all isspace w = true ->
  extract_count label (Some (d ++ w ++ label ++ tail)) = Some (int d).
Proof.
  intros Hd Hdig Hsp. apply extract_count_some.
  exists 0%nat, d. split; [|split; [|reflexivity]].
  - cbn [drop]. now exists w, tail.
  - intros j d' Hj. lia.
Qed.


End ExtractCount.

(** C5: [extract_bed] and [extract_bath] look for the leftmost place where
    digits, optional spaces and the label follow one another and return
    the number written there; an absent text, or a text without the
    label, gives [None]. *)
Theorem extract_count_first_match :
  (forall (a : ascii) (l : string),
      isdigit a = false -> isspace a = false ->
      extract_count (String a l) None = None /\
      (forall s, contains (String a l) s = false ->
                 extract_count (String a l) (Some s) = None) /\
      (forall s n,
          extract_count (String a l) (Some s) = Some n <->
          exists i d,
            count_at (String a l) d (drop i s) /\
            (forall j d', (j < i)%nat -> ~ count_at (String a l) d' (drop j s)) /\
            n = int d)) /\
  extract_bed (Some "3 Bed 2 Bath") = Some 3 /\
  extract_bath (Some "3 Bed 2 Bath") = Some 2 /\
  extract_bed (Some "Studio") = None.
Proof.
  split; [|repeat split; vm_compute; reflexivity].
  intros a l Hd Hs. split; [reflexivity|]. split.
  - intros s. now apply extract_count_no_label.
  - intros s n. now apply extract_count_some.
Qed.

Lemma extract_count_first_match_witness :
  extract_bed (Some "Flat 3 Bed 2 Bath") = Some 3 /\
  extract_bath (Some "Flat 3 Bed") = None.
Proof.
  destruct extract_count_first_match as (H & _).
  destruct (H "B"%char "ed" eq_refl eq_refl) as (_ & _ & Hbed).
  destruct (H "B"%char "ath" eq_refl eq_refl) as (_ & Hnone & _).
  split.
  - apply Hbed. exists 5%nat, "3". split; [|split; [|reflexivity]].
    + exists " ", " 2 Bath". repeat split; discriminate.
    + intros j d' Hj (w & rest & E & Hne & Hdig & _).
      destruct d' as [|c d']; [congruence|].
      do 5 (destruct j as [|j]; [cbn in E; injection E as <- _; discriminate|]).
      lia.
  - apply Hnone. reflexivity.
Defined.

(** C10: the label need not end a word: whatever follows it, the number
    before it is returned, as in "3 Bedrooms". *)
Theorem label_prefix_of_longer_word :
  (forall d w tail : string,
      d <> "" -> all isdigit d = true -> all isspace w = true ->
      extract_bed (Some (d ++ w ++ "Bed" ++ tail)) = Some (int d) /\
      extract_bath (Some (d ++ w ++ "Bath" ++ tail)) = Some (int d)) /\
  extract_bed (Some "3 Bedrooms") = Some 3 /\
  extract_bath (Some "2 Bathrooms") = Some 2.
Proof.
  split; [|split; vm_compute; reflexivity].
  intros d w tail Hd Hdig Hsp. split.
  - now apply (extract_count_prefix "B"%char "ed").
  - now apply (extract_count_prefix "B"%char "ath").
Qed.

Lemma label_prefix_of_longer_word_witness :
  extract_bed (Some "12  Bedrooms") = Some 12 /\
  extract_bath (Some "12  Bathtub") = Some 12.
Proof.
  destruct label_prefix_of_longer_word as (H & _).
  apply (H "12" "  "); [discriminate | reflexivity | reflexivity].
Defined.

(** ** [clean_data] *)

Section CleanData.

(** Row by row: the price of the first row is parsed first, and a row
    is kept when its number is neither [None] nor NaN. *)
Lemma clean_data_cons (r : Raw.t) (df : list Raw.t) :
  clean_data (r :: df) =
  p <- price_to_number (Raw.Price r) ;;
  rest <- clean_data df ;;
  Returned (if notna p then cleaned r p :: rest else rest).
Proof.
  unfold clean_data. cbn [map apply].
  destruct (price_to_number (Raw.Price r)) as [p|e]; cbn [bind]; [|reflexivity].
  destruct (apply price_to_number (map Raw.Price df)) as [ps|e]; cbn [bind];
    [|reflexivity].
  cbn [combine map filter price_numeric]. now destruct (notna p).
Qed.

Lemma clean_data_no_raise (df : list Raw.t) :
  Forall (fun r => price_to_number (Raw.Price r) <> Raised ValueError) df ->
  clean_data df = Returned (map (fun rx => cleaned (fst rx) (Some (snd rx))) (usable df)).
Proof.
  induction 1 as [|r df Hr _ IH]; [reflexivity|].
  rewrite clean_data_cons, IH. cbn [usable].
  destruct (price_to_number (Raw.Price r)) as [[x|]|[]]; cbn [bind notna];
    [|reflexivity|congruence].
  now destruct (PyFloat.isnan x).
Qed.

Lemma clean_data_raise (df : list Raw.t) :
  Exists (fun r => price_to_number (Raw.Price r) = Raised ValueError) df ->
  clean_data df = Raised ValueError.
Proof.
  induction df as [|r df IH]; intros H; [inversion H|].
  rewrite clean_data_cons.
  destruct (price_to_number (Raw.Price r)) as [p|[]] eqn:E; cbn [bind]; [|reflexivity].
  inversion H as [? ? H0|? ? H0]; subst; [congruence|].
  now rewrite (IH H0).
Qed.




End CleanData.




(** C6: one price that [float] refuses inside a suffix branch stops the
    whole batch: nothing is returned, the good record included. *)
Theorem clean_data_batch_raises :
  clean_data [Raw.mk (Some "DHA") (Some "PKR 2 Crore") (Some "4 Bed 3 Bath") None;
              Raw.mk (Some "Clifton") (Some "PKR abc Crore") (Some "2 Bed") None] =
  Raised ValueError /\
  clean_data [Raw.mk (Some "DHA") (Some "PKR 2 Crore") (Some "4 Bed 3 Bath") None;
              Raw.mk (Some "Clifton") (Some "PKR abc") (Some "2 Bed") None] =
  Returned [Clean.mk (Some "DHA") (Some "PKR 2 Crore") (PyFloat.of_int 20000000) 4 3].
Proof. split; vm_compute; reflexivity. Qed.

(** ** Cleaning what has been cleaned *)

Section Recleaning.



End Recleaning.



(** ** The filter step *)

Section Filter.

Lemma eqb_cell_eq (x y : option string) : eqb_cell x y = true <-> x = y.
Proof.
  destruct x as [x|], y as [y|]; cbn; try (split; [discriminate | congruence]).
  - rewrite String.eqb_eq. split; congruence.
  - split; reflexivity.
Qed.

Lemma isin_In (x : option string) (values : list (option string)) :
  isin x values = true <-> In x values.
Proof.
  unfold isin. rewrite existsb_exists. split.
  - intros (y & Hy & E). apply eqb_cell_eq in E. now subst.
  - intros H. exists x. split; [exact H | now apply eqb_cell_eq].
Qed.

Lemma apply_filters_filter (sel : list (option string)) (lo hi : PyFloat.float)
      (df : list Clean.t) :
  apply_filters sel (lo, hi) df = filter (keeps sel lo hi) df.
Proof. destruct sel; reflexivity. Qed.

Lemma keeps_included (sel : list (option string)) (lo hi : PyFloat.float)
      (r : Clean.t) :
  keeps sel lo hi r = true <-> included sel lo hi r.
Proof.
  unfold keeps, included. rewrite !andb_true_iff.
  destruct sel as [|x sel].
  - intuition.
  - rewrite isin_In. intuition discriminate.
Qed.

Lemma apply_filters_In (sel : list (option string)) (lo hi : PyFloat.float)
      (df : list Clean.t) (r : Clean.t) :
  In r (apply_filters sel (lo, hi) df) <-> In r df /\ included sel lo hi r.
Proof. now rewrite apply_filters_filter, filter_In, keeps_included. Qed.

Lemma no_member_nil {A} (xs : list A) : (forall x, ~ In x xs) -> xs = [].
Proof. destruct xs as [|x xs]; [reflexivity|]. intros H. destruct (H x). now left. Qed.

(** The order of floats: nothing lies between a bound and a smaller one. *)
Lemma leb_leb_ltb (lo x hi : PyFloat.float) :
  PyFloat.leb lo x = true -> PyFloat.leb x hi = true ->
  PyFloat.ltb hi lo = true -> False.
Proof.
  unfold PyFloat.leb, PyFloat.ltb, SFleb, SFltb, SFcompare.
  destruct lo as [s1|s1| |s1 m1 e1], x as [s2|s2| |s2 m2 e2],
           hi as [s3|s3| |s3 m3 e3];
    try destruct s1; try destruct s2; try destruct s3;
    try discriminate;
    change (Pos.compare_cont Eq) with Pos.compare;
    repeat match goal with
           | |- context [Z.compare ?u ?v] => destruct (Z.compare_spec u v)
           | |- context [Pos.compare ?u ?v] => destruct (Pos.compare_spec u v)
           end;
    cbn; try discriminate; intros; subst; lia.
Qed.

Lemma nonneg_below_inf (x : PyFloat.float) :
  PyFloat.leb (PyFloat.of_int 0) x = true -> PyFloat.leb x PyFloat.inf = true.
Proof. destruct x as [s|[]| |[] m e]; cbn; congruence. Qed.

End Filter.


(** ** Whole numbers as floats *)

Section WholeFloats.

Import PyFloat.

Lemma digits2_size (p : positive) : digits2_pos p = Pos.size p.
Proof. induction p; cbn; congruence. Qed.

Lemma iter_xO_Z (p k : positive) :
  Zpos (Pos.iter xO p k) = Zpos p * 2 ^ Zpos k.
Proof.
  induction k as [|k IH] using Pos.peano_ind.
  - change (Pos.iter xO p 1) with (p~0)%positive. change (2 ^ 1) with 2. lia.
  - rewrite Pos.iter_succ, Pos2Z.inj_xO, IH, Pos2Z.inj_succ, Z.pow_succ_r; lia.
Qed.

Lemma size_iter_xO (p k : positive) :
  Zpos (Pos.size (Pos.iter xO p k)) = Zpos (Pos.size p) + Zpos k.
Proof.
  induction k as [|k IH] using Pos.peano_ind.
  - change (Pos.iter xO p 1) with (p~0)%positive. cbn [Pos.size]. lia.
  - rewrite Pos.iter_succ. cbn [Pos.size]. lia.
Qed.

Lemma size_gt_Z (p : positive) : Zpos p < 2 ^ Zpos (Pos.size p).
Proof.
  pose proof (Pos.size_gt p) as H. apply Pos2Z.pos_lt_pos in H.
  now rewrite Pos2Z.inj_pow in H.
Qed.

Lemma size_le_Z (p : positive) : 2 ^ Zpos (Pos.size p) <= 2 * Zpos p.
Proof.
  pose proof (Pos.size_le p) as H. apply Pos2Z.pos_le_pos in H.
  now rewrite Pos2Z.inj_pow in H.
Qed.

Lemma size_bound (p : positive) : Zpos p < 2 ^ 53 -> Zpos (Pos.size p) <= 53.
Proof.
  intros H. pose proof (size_le_Z p) as Hle.
  assert (Hlt : 2 ^ Zpos (Pos.size p) < 2 ^ 54)
    by (change (2 ^ 54) with (2 * 2 ^ 53); lia).
  apply Z.pow_lt_mono_r_iff in Hlt; lia.
Qed.

Lemma size_lt_lt (p q : positive) :
  Zpos (Pos.size p) < Zpos (Pos.size q) -> Zpos p < Zpos q.
Proof.
  intros H. pose proof (size_gt_Z p) as Hp. pose proof (size_le_Z q) as Hq.
  assert (Hpow : 2 ^ (Zpos (Pos.size p) + 1) <= 2 ^ Zpos (Pos.size q))
    by (apply Z.pow_le_mono_r; lia).
  rewrite Z.pow_add_r in Hpow by lia. change (2 ^ 1) with 2 in Hpow. lia.
Qed.

Lemma mant_Z (p : positive) :
  Zpos (Pos.size p) <= 53 ->
  Zpos (mant p) = Zpos p * 2 ^ (53 - Zpos (Pos.size p)) /\
  Zpos (Pos.size (mant p)) = 53.
Proof.
  intros H. unfold mant, shl_align.
  destruct (Zpos (Pos.size p) - 53 - 0) as [|k|k] eqn:E; cbn [fst]; try lia.
  - replace (53 - Zpos (Pos.size p)) with 0 by lia. cbn. lia.
  - rewrite iter_xO_Z, size_iter_xO.
    replace (53 - Zpos (Pos.size p)) with (Zpos k) by lia. lia.
Qed.

Lemma binary_round_aux_exact (s : bool) (m : positive) (e : Z) :
  Zpos (Pos.size m) = 53 -> -1074 <= e <= 971 ->
  binary_round_aux prec emax s (Zpos m) e loc_Exact = S754_finite s m e.
Proof.
  intros Hm He. unfold binary_round_aux, shr_fexp, fexp, emin, prec, emax.
  cbn [Zdigits2 shr_record_of_loc]. rewrite digits2_size, Hm.
  replace (Z.max (53 + e - 53) (3 - 1024 - 53) - e) with 0 by lia.
  cbn [shr shr_m loc_of_shr_record round_nearest_even Zdigits2 shr_record_of_loc].
  rewrite digits2_size, Hm.
  replace (Z.max (53 + e - 53) (3 - 1024 - 53) - e) with 0 by lia.
  cbn [shr shr_m].
  replace (e <=? 1024 - 53) with true by (symmetry; apply Z.leb_le; lia).
  reflexivity.
Qed.

Lemma binary_round_whole (s : bool) (p : positive) :
  Zpos p < 2 ^ 53 ->
  binary_round prec emax s p 0 = S754_finite s (mant p) (expo p).
Proof.
  intros H. pose proof (size_bound p H) as Hs.
  pose proof (mant_Z p Hs) as [_ Hm].
  unfold binary_round, fexp, emin, prec, emax. rewrite digits2_size.
  replace (Z.max (Zpos (Pos.size p) + 0 - 53) (3 - 1024 - 53))
    with (Zpos (Pos.size p) - 53) by lia.
  assert (E : shl_align p 0 (Zpos (Pos.size p) - 53) = (mant p, expo p)).
  { unfold mant, expo, shl_align.
    destruct (Zpos (Pos.size p) - 53 - 0) eqn:E; cbn [fst]; try reflexivity;
      f_equal; lia. }
  rewrite E. apply binary_round_aux_exact; [exact Hm | unfold expo; lia].
Qed.

Lemma whole_compare (p q : positive) :
  Zpos p < 2 ^ 53 -> Zpos q < 2 ^ 53 ->
  match Z.compare (expo p) (expo q) with
  | Lt => Lt
  | Gt => Gt
  | Eq => Pos.compare_cont Eq (mant p) (mant q)
  end = (p ?= q)%positive.
Proof.
  intros Hp Hq.
  pose proof (size_bound p Hp) as Hsp. pose proof (size_bound q Hq) as Hsq.
  destruct (mant_Z p Hsp) as [Hmp _]. destruct (mant_Z q Hsq) as [Hmq _].
  unfold expo. symmetry.
  destruct (Z.compare_spec (Zpos (Pos.size p) - 53) (Zpos (Pos.size q) - 53))
    as [E|E|E].
  - change (Pos.compare_cont Eq (mant p) (mant q)) with (mant p ?= mant q)%positive.
    rewrite !Pos2Z.inj_compare, Hmp, Hmq.
    replace (Zpos (Pos.size p)) with (Zpos (Pos.size q)) by lia.
    apply Zmult_compare_compat_r.
    assert (0 < 2 ^ (53 - Zpos (Pos.size q))) by (apply Z.pow_pos_nonneg; lia).
    lia.
  - apply Pos.compare_lt_iff. apply Pos2Z.pos_lt_pos. apply size_lt_lt. lia.
  - apply Pos.compare_gt_iff. apply Pos2Z.pos_lt_pos. apply size_lt_lt. lia.
Qed.

(** Floats of whole numbers below [2^53] are ordered as the numbers. *)
Lemma compare_of_int (a b : Z) :
  - 2 ^ 53 < a < 2 ^ 53 -> - 2 ^ 53 < b < 2 ^ 53 ->
  SFcompare (of_int a) (of_int b) = Some (a ?= b).
Proof.
  intros Ha Hb. unfold of_int, binary_normalize.
  destruct a as [|p|p], b as [|q|q]; try reflexivity;
    rewrite ?binary_round_whole by lia; try reflexivity.
  - cbn [SFcompare]. now rewrite whole_compare by lia.
  - cbn [SFcompare]. cbn [Z.compare]. rewrite <- (whole_compare p q) by lia.
    now destruct (expo p ?= expo q).
Qed.

Lemma leb_of_int (a b : Z) :
  - 2 ^ 53 < a < 2 ^ 53 -> - 2 ^ 53 < b < 2 ^ 53 ->
  leb (of_int a) (of_int b) = (a <=? b).
Proof.
  intros Ha Hb. unfold leb, SFleb. rewrite (compare_of_int a b Ha Hb).
  unfold Z.leb. now destruct (a ?= b).
Qed.

End WholeFloats.

Section AllShown.

Lemma filter_id_all {A} (f : A -> bool) (xs : list A) :
  filter f xs = xs <-> forall x, In x xs -> f x = true.
Proof.
  split.
  - intros H x Hx. rewrite <- H in Hx. now apply filter_In in Hx.
  - intros H. now apply forallb_filter_id, forallb_forall.
Qed.

Lemma keeps_from_zero (r : Clean.t) :
  keeps [] (PyFloat.of_int 0) PyFloat.inf r =
  PyFloat.leb (PyFloat.of_int 0) (Clean.Price_numeric r).
Proof.
  unfold keeps. cbn [andb].
  destruct (PyFloat.leb (PyFloat.of_int 0) (Clean.Price_numeric r)) eqn:E;
    [|reflexivity].
  now rewrite (nonneg_below_inf _ E).
Qed.

End AllShown.

(** C7, as the code has it: a row passes the filter exactly when its
    location is selected, or nothing is selected, and its number lies
    between the two bounds, both included; the rows that pass keep their
    order; for whole numbers below [2^53] the test on the floats is the
    comparison of the numbers. With nothing selected and the bounds 0 and
    infinity the rows that pass are the rows whose number is at least 0:
    every row is returned exactly when no number of the dataset is
    negative or NaN. *)
Theorem filter_inclusion_rule :
  (forall sel lo hi df,
      exists keep : Clean.t -> bool,
        apply_filters sel (lo, hi) df = filter keep df /\
        forall r, keep r = true <-> included sel lo hi r) /\
  (forall sel lo hi df r,
      In r (apply_filters sel (lo, hi) df) <-> In r df /\ included sel lo hi r) /\
  (forall sel (lo hi x : Z) df r,
      - 2 ^ 53 < lo < 2 ^ 53 -> - 2 ^ 53 < hi < 2 ^ 53 -> - 2 ^ 53 < x < 2 ^ 53 ->
      Clean.Price_numeric r = PyFloat.of_int x ->
      (In r (apply_filters sel (PyFloat.of_int lo, PyFloat.of_int hi) df) <->
       In r df /\ (sel = [] \/ In (Clean.Location r) sel) /\ lo <= x <= hi)) /\
  (forall df,
      apply_filters [] (PyFloat.of_int 0, PyFloat.inf) df =
      filter (fun r => PyFloat.leb (PyFloat.of_int 0) (Clean.Price_numeric r)) df) /\
  (forall df,
      apply_filters [] (PyFloat.of_int 0, PyFloat.inf) df = df <->
      forall r, In r df ->
                PyFloat.leb (PyFloat.of_int 0) (Clean.Price_numeric r) = true).
Proof.
  split; [|split; [|split; [|split]]].
  - intros sel lo hi df. exists (keeps sel lo hi). split.
    + apply apply_filters_filter.
    + intros r. apply keeps_included.
  - intros. apply apply_filters_In.
  - intros sel lo hi x df r Hlo Hhi Hx E.
    rewrite apply_filters_In. unfold included.
    rewrite E, !leb_of_int, !Z.leb_le by assumption. tauto.
  - intros df. rewrite apply_filters_filter.
    apply filter_ext. exact keeps_from_zero.
  - intros df. rewrite apply_filters_filter, filter_id_all.
    split; intros H r Hr; specialize (H r Hr); now rewrite keeps_from_zero in *.
Qed.

Lemma filter_inclusion_rule_witness :
  let a := Clean.mk (Some "DHA") (Some "PKR 2 Crore") (PyFloat.of_int 20000000) 4 3 in
  let b := Clean.mk (Some "Clifton") (Some "PKR 50 Lakh") (PyFloat.of_int 5000000) 2 2 in
  apply_filters [] (PyFloat.of_int 0, PyFloat.inf) [a; b; a] = [a; b; a] /\
  In b (apply_filters [Some "Clifton"] (PyFloat.of_int 5000000, PyFloat.of_int 5000000)
                      [a; b; a]) /\
  ~ In a (apply_filters [] (PyFloat.of_int 0, PyFloat.of_int 10000000) [a; b; a]).
Proof.
  intros a b. destruct filter_inclusion_rule as (_ & _ & Hint & _ & Hall).
  split; [|split].
  - apply Hall. intros r [<-|[<-|[<-|[]]]]; reflexivity.
  - apply (Hint [Some "Clifton"] 5000000 5000000 5000000 [a; b; a] b);
      try (split; reflexivity).
    split; [right; left; reflexivity|].
    split; [right; left; reflexivity|]. split; discriminate.
  - intros H.
    apply (Hint [] 0 10000000 20000000 [a; b; a] a) in H;
      try (split; reflexivity).
    destruct H as (_ & _ & _ & H). exact (H eq_refl).
Defined.

(** The cleaner returns a row with a negative number, and the filter
    with nothing selected and the bounds 0 and infinity does not return
    it: not every record of the dataset is shown. *)
Lemma negative_price_not_shown :
  let c := Clean.mk (Some "DHA") (Some "PKR -5") (PyFloat.of_int (-5)) 4 0 in
  clean_data [Raw.mk (Some "DHA") (Some "PKR -5") (Some "4 Bed") None] = Returned [c] /\
  apply_filters [] (PyFloat.of_int 0, PyFloat.inf) [c] = [] /\
  apply_filters [] (PyFloat.of_int 0, PyFloat.inf) [c] <> [c].
Proof. repeat split; vm_compute; (reflexivity || discriminate). Qed.

(** C8: bounds the wrong way round, or a selection of locations none of
    which is in the dataset, are not refused: the filter returns the empty
    dataset. *)
Theorem filter_malformed_criteria_empty :
  (forall sel lo hi df,
      PyFloat.ltb hi lo = true -> apply_filters sel (lo, hi) df = []) /\
  (forall sel lo hi df,
      sel <> [] ->
      (forall r, In r df -> ~ In (Clean.Location r) sel) ->
      apply_filters sel (lo, hi) df = []).
Proof.
  split.
  - intros sel lo hi df H. apply no_member_nil. intros r Hr.
    apply apply_filters_In in Hr as (_ & _ & H1 & H2).
    exact (leb_leb_ltb lo _ hi H1 H2 H).
  - intros sel lo hi df Hsel H. apply no_member_nil. intros r Hr.
    apply apply_filters_In in Hr as (Hin & [Hnil|Hloc] & _).
    + contradiction.
    + exact (H r Hin Hloc).
Qed.

Lemma filter_malformed_criteria_empty_witness :
  let a := Clean.mk (Some "DHA") (Some "PKR 2 Crore") (PyFloat.of_int 20000000) 4 3 in
  let b := Clean.mk (Some "Clifton") (Some "PKR 50 Lakh") (PyFloat.of_int 5000000) 2 2 in
  apply_filters [Some "DHA"] (PyFloat.of_int 30000000, PyFloat.of_int 10000000) [a; b] = [] /\
  apply_filters [Some "Saddar"; None] (PyFloat.of_int 0, PyFloat.inf) [a; b] = [].
Proof.
  intros a b. destruct filter_malformed_criteria_empty as (Hbounds & Hloc). split.
  - apply Hbounds. reflexivity.
  - apply Hloc; [discriminate|].
    intros r [<-|[<-|[]]] [E|[E|[]]]; discriminate.
Defined.


(** * Further properties *)

(** ** Prices that give no number, prices that always do *)

Section PriceTexts.

Import PyFloat.

Ltac by_char c := destruct c as [[] [] [] [] [] [] [] []].

Lemma mem_contains (c : ascii) (s : string) :
  contains (String c "") s = mem c s.
Proof.
  induction s as [|h s IH]; [reflexivity|].
  cbn [contains startswith mem]. rewrite IH. now rewrite andb_true_r.
Qed.

Lemma mem_app (c : ascii) (s t : string) :
  mem c (s ++ t) = (mem c s || mem c t)%bool.
Proof.
  induction s as [|h s IH]; [reflexivity|].
  cbn [append mem]. rewrite IH. apply orb_assoc.
Qed.

Lemma all_not_mem (cls : ascii -> bool) (c : ascii) (s : string) :
  all cls s = true -> cls c = false -> mem c s = false.
Proof.
  intros Hs Hc. destruct (mem c s) eqn:E; [|reflexivity].
  rewrite (all_mem cls c s Hs E) in Hc. discriminate.
Qed.

Lemma not_mem_not_contains (a : ascii) (t s : string) :
  mem a s = false -> contains (String a t) s = false.
Proof.
  intros H. destruct (contains (String a t) s) eqn:E; [|reflexivity].
  apply contains_mem in E. congruence.
Qed.

(** A character that is neither deleted nor a space outlives the
    deletion of a token and the strip. *)
Lemma mem_strip_replace (c o : ascii) (old s : string) :
  mem c (String o old) = false -> isspace c = false ->
  mem c s = true -> mem c (strip (replace (String o old) "" s)) = true.
Proof.
  intros Hold Hsp Hm. rewrite <- mem_contains.
  apply contains_strip; [cbn; now rewrite Hsp|].
  apply contains_replace.
  - exact Hold.
  - cbn [mem] in *. apply orb_false_elim in Hold as [Hco _].
    rewrite Ascii.eqb_sym, Hco. reflexivity.
  - rewrite mem_contains. exact Hm.
Qed.

Lemma append_nil_r (s : string) : s ++ "" = s.
Proof. induction s as [|c s IH]; [reflexivity | cbn; now rewrite IH]. Qed.

Lemma replace_prefix_free (o : ascii) (old new p s : string) :
  mem o p = false ->
  replace (String o old) new (p ++ s) = p ++ replace (String o old) new s.
Proof.
  induction p as [|c p IH]; intros H; [reflexivity|].
  cbn [mem] in H. apply orb_false_elim in H as [Hoc H].
  cbn [append]. rewrite replace_nomatch by (cbn [startswith]; now rewrite Hoc).
  now rewrite IH.
Qed.

Lemma replace_free (o : ascii) (old new s : string) :
  mem o s = false -> replace (String o old) new s = s.
Proof.
  intros H. rewrite <- (append_nil_r s) at 1.
  rewrite replace_prefix_free by exact H. apply append_nil_r.
Qed.

Lemma lstrip_spaces (w s : string) :
  all isspace w = true -> lstrip (w ++ s) = lstrip s.
Proof.
  induction w as [|c w IH]; intros H; [reflexivity|].
  cbn in H. apply andb_prop in H as [Hc H].
  cbn [append lstrip]. rewrite Hc. now apply IH.
Qed.

Lemma rstrip_spaces (w : string) : all isspace w = true -> rstrip w = "".
Proof.
  induction w as [|c w IH]; intros H; [reflexivity|].
  cbn in H. apply andb_prop in H as [Hc H].
  cbn [rstrip]. now rewrite (IH H), Hc.
Qed.

Lemma rstrip_app_spaces (s w : string) :
  all isspace w = true -> rstrip (s ++ w) = rstrip s.
Proof.
  intros H. induction s as [|c s IH]; [now apply rstrip_spaces|].
  cbn [append rstrip]. now rewrite IH.
Qed.

Lemma rstrip_fixed_app (x t : string) :
  t <> "" -> rstrip t = t -> rstrip (x ++ t) = x ++ t.
Proof.
  intros Hne Ht. induction x as [|c x IH]; [exact Ht|].
  cbn [append rstrip]. rewrite IH.
  destruct (x ++ t) eqn:E; [|reflexivity].
  destruct x; cbn in E; [congruence | discriminate].
Qed.

Lemma rstrip_no_space (s : string) :
  all (fun c => negb (isspace c)) s = true -> rstrip s = s.
Proof.
  induction s as [|c s IH]; intros H; [reflexivity|].
  cbn in H. apply andb_prop in H as [Hc H]. apply negb_true_iff in Hc.
  cbn [rstrip]. rewrite (IH H), Hc. now destruct s.
Qed.

Lemma digits_no_space (d : string) :
  all isdigit d = true -> all (fun c => negb (isspace c)) d = true.
Proof.
  induction d as [|c d IH]; intros H; [reflexivity|].
  cbn in *. apply andb_prop in H as [Hc H].
  now rewrite (digit_not_space c Hc), (IH H).
Qed.

Lemma lstrip_digits (d s : string) :
  d <> "" -> all isdigit d = true -> lstrip (d ++ s) = d ++ s.
Proof.
  destruct d as [|c d]; [congruence|]. intros _ H.
  cbn in H. apply andb_prop in H as [Hc _].
  cbn [append lstrip]. now rewrite (digit_not_space c Hc).
Qed.

(** The price text is the same with or without a leading "PKR",
    whatever the spaces around it. *)
Lemma pkr_prefix_text (w1 w2 s : string) :
  all isspace w1 = true -> all isspace w2 = true ->
  strip (replace "PKR" "" (w1 ++ "PKR" ++ w2 ++ s)) = strip (replace "PKR" "" s).
Proof.
  intros H1 H2.
  rewrite replace_prefix_free by (apply (all_not_mem isspace); [exact H1 | reflexivity]).
  rewrite (replace_match "P" "KR" "" ("PKR" ++ w2 ++ s)) by apply startswith_app.
  rewrite drop_app. cbn [append].
  rewrite replace_prefix_free by (apply (all_not_mem isspace); [exact H2 | reflexivity]).
  unfold strip. now rewrite !lstrip_spaces.
Qed.

Lemma price_of_text (s s' : string) :
  strip (replace "PKR" "" s) = strip (replace "PKR" "" s') ->
  price_to_number (Some s) = price_to_number (Some s').
Proof. intros H. unfold price_to_number. now rewrite H. Qed.

End PriceTexts.

Section DigitLiterals.

Import PyFloat.

Ltac by_char c := destruct c as [[] [] [] [] [] [] [] []].

Lemma digit_facts (c : ascii) :
  isdigit c = true ->
  Nat.ltb (ord c) 127 = true /\ c_isspace c = false /\
  Ascii.eqb c "_" = false /\
  forall t, take_sign (String c t) = (false, String c t).
Proof.
  by_char c; intros H; try (vm_compute in H; discriminate H);
    repeat split; reflexivity.
Qed.

Lemma to_ascii_digits (d : string) : all isdigit d = true -> to_ascii d = d.
Proof.
  induction d as [|c d IH]; intros H; [reflexivity|].
  cbn in H. apply andb_prop in H as [Hc H].
  destruct (digit_facts c Hc) as (Hlt & _).
  cbn [to_ascii]. now rewrite Hlt, IH.
Qed.

Lemma c_lstrip_digits (d : string) : all isdigit d = true -> c_lstrip d = d.
Proof.
  destruct d as [|c d]; intros H; [reflexivity|].
  cbn in H. apply andb_prop in H as [Hc H].
  destruct (digit_facts c Hc) as (_ & Hsp & _).
  cbn [c_lstrip]. now rewrite Hsp.
Qed.

Lemma c_rstrip_digits (d : string) : all isdigit d = true -> c_rstrip d = d.
Proof.
  induction d as [|c d IH]; intros H; [reflexivity|].
  cbn in H. apply andb_prop in H as [Hc H].
  destruct (digit_facts c Hc) as (_ & Hsp & _).
  cbn [c_rstrip]. rewrite (IH H), Hsp. now destruct d.
Qed.

Lemma drop_underscores_digits (d : string) (prev : ascii) :
  Ascii.eqb prev "_" = false -> all isdigit d = true ->
  drop_underscores prev d = Some d.
Proof.
  revert prev; induction d as [|c d IH]; intros prev Hp H.
  - cbn. now rewrite Hp.
  - cbn in H. apply andb_prop in H as [Hc H].
    destruct (digit_facts c Hc) as (_ & _ & Hus & _).
    cbn [drop_underscores]. rewrite Hus, Hc, andb_false_r.
    now rewrite (IH c Hus H).
Qed.

Lemma run_length_all (cls : ascii -> bool) (s : string) :
  all cls s = true -> run_length cls s = length s.
Proof.
  induction s as [|c s IH]; intros H; [reflexivity|].
  cbn in H. apply andb_prop in H as [Hc H].
  cbn. now rewrite Hc, IH.
Qed.

Lemma take_length (s : string) : take (length s) s = s.
Proof. induction s as [|c s IH]; [reflexivity | cbn; now rewrite IH]. Qed.

Lemma drop_length (s : string) : drop (length s) s = "".
Proof. induction s as [|c s IH]; [reflexivity | exact IH]. Qed.

(** A whole number is read exactly as [float * int] reads its integer. *)
Lemma of_decimal_int (n : Z) : 0 <= n -> of_decimal false n 0 = of_int n.
Proof.
  intros Hn. destruct n as [|p|p]; [reflexivity| |lia].
  unfold of_decimal, of_int, binary_normalize.
  change (0 <=? 0) with true. change (Z.to_pos (10 ^ 0)) with 1%positive.
  now rewrite Pos.mul_1_r.
Qed.

Lemma strtod_digits (d : string) :
  d <> "" -> all isdigit d = true -> strtod d = Some (of_int (int d), "").
Proof.
  intros Hne H. destruct d as [|c d]; [congruence|].
  assert (Hc : isdigit c = true) by (cbn in H; now apply andb_prop in H).
  destruct (digit_facts c Hc) as (_ & _ & _ & Hsign).
  unfold strtod. rewrite Hsign.
  rewrite (run_length_all isdigit _ H), take_length, drop_length.
  cbn [parse_fraction]. rewrite append_nil_r.
  cbn [parse_exponent length]. change (0 - Z.of_nat 0) with 0.
  rewrite of_decimal_int; [reflexivity|].
  apply digits_value_nonneg; [exact H | lia].
Qed.

(** [float] of a run of digits is the float nearest to the number. *)
Lemma of_str_digits (d : string) :
  d <> "" -> all isdigit d = true -> of_str d = Returned (of_int (int d)).
Proof.
  intros Hne H. unfold of_str.
  rewrite (to_ascii_digits d H), (c_lstrip_digits d H), (c_rstrip_digits d H).
  rewrite (drop_underscores_digits d zero eq_refl H).
  now rewrite (strtod_digits d Hne H).
Qed.

Lemma strip_digits_spaces (d w : string) :
  d <> "" -> all isdigit d = true -> all isspace w = true ->
  strip (d ++ w) = d.
Proof.
  intros Hne Hd Hw. unfold strip.
  rewrite (lstrip_digits d w Hne Hd), (rstrip_app_spaces d w Hw).
  apply rstrip_no_space, digits_no_space, Hd.
Qed.

(** The text [digits spaces token], stripped, with the token deleted and
    stripped again, is the digits. *)
Lemma digits_token_text (o : ascii) (tok d w : string) :
  d <> "" -> all isdigit d = true -> all isspace w = true ->
  isdigit o = false -> isspace o = false ->
  rstrip (String o tok) = String o tok ->
  replace (String o tok) "" (String o tok) = "" ->
  strip (d ++ w ++ String o tok) = d ++ w ++ String o tok /\
  contains (String o tok) (d ++ w ++ String o tok) = true /\
  strip (replace (String o tok) "" (d ++ w ++ String o tok)) = d.
Proof.
  intros Hne Hd Hw Hod Hos Hfix Hdel. split; [|split].
  - unfold strip. rewrite (lstrip_digits d _ Hne Hd).
    apply rstrip_fixed_app.
    + destruct w; discriminate.
    + apply rstrip_fixed_app; [discriminate | exact Hfix].
  - apply contains_skip, contains_skip, contains_start.
    rewrite <- (append_nil_r (String o tok)) at 2. apply startswith_app.
  - rewrite replace_prefix_free by (apply (all_not_mem isdigit); assumption).
    rewrite replace_prefix_free by (apply (all_not_mem isspace); assumption).
    rewrite Hdel, append_nil_r. now apply strip_digits_spaces.
Qed.

End DigitLiterals.

Section PriceOutcomes.

Import PyFloat.

Lemma token_letters (c : ascii) :
  mem c "PKRCroeLakh" = false ->
  mem c "PKR" = false /\ mem c "Crore" = false /\ mem c "Lakh" = false.
Proof.
  destruct c as [[] [] [] [] [] [] [] []]; vm_compute; intros H;
    repeat split; congruence.
Qed.

Lemma digits_free_of (c : ascii) (d w tail : string) :
  isdigit c = false -> isspace c = false -> mem c tail = false ->
  all isdigit d = true -> all isspace w = true ->
  mem c (d ++ w ++ tail) = false.
Proof.
  intros Hd Hs Ht Hdig Hsp. rewrite !mem_app, Ht.
  now rewrite (all_not_mem isdigit c d Hdig Hd), (all_not_mem isspace c w Hsp Hs).
Qed.

End PriceOutcomes.

(** X1: a character that [float] accepts nowhere, and that is no space
    and no letter of "PKR", "Crore" or "Lakh", spoils the price wherever
    it stands: with a suffix token in the text the call raises, without
    one it returns [None]. A thousands separator is such a character. *)
Theorem foreign_character_no_number (c : ascii) (s : string) :
  foreign c = true -> isspace c = false ->
  mem c "PKRCroeLakh" = false -> mem c s = true ->
  price_to_number (Some s) =
  if (contains "Crore" (strip (replace "PKR" "" s))
      || contains "Lakh" (strip (replace "PKR" "" s)))%bool
  then Raised ValueError else Returned None.
Proof.
  intros Hf Hsp Htok Hm.
  destruct (token_letters c Htok) as (Hp & Hc & Hl).
  pose proof (mem_strip_replace c "P" "KR" s Hp Hsp Hm) as Ht.
  destruct (contains "Crore" (strip (replace "PKR" "" s))) eqn:E1; cbn [orb].
  - rewrite (crore_branch s E1). unfold scaled.
    now rewrite (of_str_foreign _ c Hf (mem_strip_replace c "C" "rore" _ Hc Hsp Ht)).
  - destruct (contains "Lakh" (strip (replace "PKR" "" s))) eqn:E2.
    + rewrite (lakh_branch s E1 E2). unfold scaled.
      now rewrite (of_str_foreign _ c Hf (mem_strip_replace c "L" "akh" _ Hl Hsp Ht)).
    + rewrite (plain_branch s E1 E2).
      now rewrite (of_str_foreign _ c Hf Ht).
Qed.

Lemma foreign_character_no_number_witness :
  price_to_number (Some "PKR 85,000") = Returned None /\
  price_to_number (Some "PKR 1,25 Crore") = Raised ValueError.
Proof.
  split.
  - exact (foreign_character_no_number "," "PKR 85,000"
             eq_refl eq_refl eq_refl eq_refl).
  - exact (foreign_character_no_number "," "PKR 1,25 Crore"
             eq_refl eq_refl eq_refl eq_refl).
Defined.

(** X2: a price written as "PKR", a whole number and, if any, "Crore" or
    "Lakh", with any spaces between them or none, always gives a number
    and never raises: the float nearest to the number written, times
    10,000,000 or 100,000 when the suffix is there. *)
Theorem whole_number_prices_parse (w1 w2 d : string) :
  d <> "" -> all isdigit d = true ->
  all isspace w1 = true -> all isspace w2 = true ->
  price_to_number (Some ("PKR" ++ w1 ++ d)) =
    Returned (Some (PyFloat.of_int (int d))) /\
  price_to_number (Some ("PKR" ++ w1 ++ d ++ w2 ++ "Crore")) =
    Returned (Some (PyFloat.mul (PyFloat.of_int (int d)) crore)) /\
  price_to_number (Some ("PKR" ++ w1 ++ d ++ w2 ++ "Lakh")) =
    Returned (Some (PyFloat.mul (PyFloat.of_int (int d)) lakh)).
Proof.
  intros Hne Hd H1 H2.
  assert (Hpre : forall s, price_to_number (Some ("PKR" ++ w1 ++ s)) =
                           price_to_number (Some s)).
  { intros s. apply price_of_text.
    exact (pkr_prefix_text "" w1 s eq_refl H1). }
  rewrite !Hpre. split; [|split].
  - assert (Ht : strip (replace "PKR" "" d) = d).
    { rewrite replace_free by (apply (all_not_mem isdigit); [exact Hd | reflexivity]).
      rewrite <- (append_nil_r d) at 1. now apply strip_digits_spaces. }
    rewrite plain_branch; rewrite Ht.
    + now rewrite (of_str_digits d Hne Hd).
    + apply not_mem_not_contains, (all_not_mem isdigit); [exact Hd | reflexivity].
    + apply not_mem_not_contains, (all_not_mem isdigit); [exact Hd | reflexivity].
  - destruct (digits_token_text "C" "rore" d w2 Hne Hd H2
                eq_refl eq_refl eq_refl eq_refl) as (Hs & Hc & Hr).
    assert (Ht : strip (replace "PKR" "" (d ++ w2 ++ "Crore")) = d ++ w2 ++ "Crore").
    { rewrite replace_free; [exact Hs|].
      apply digits_free_of; try reflexivity; assumption. }
    rewrite crore_branch; rewrite Ht; [|exact Hc].
    rewrite Hr. unfold scaled. now rewrite (of_str_digits d Hne Hd).
  - destruct (digits_token_text "L" "akh" d w2 Hne Hd H2
                eq_refl eq_refl eq_refl eq_refl) as (Hs & Hc & Hr).
    assert (Ht : strip (replace "PKR" "" (d ++ w2 ++ "Lakh")) = d ++ w2 ++ "Lakh").
    { rewrite replace_free; [exact Hs|].
      apply digits_free_of; try reflexivity; assumption. }
    rewrite lakh_branch; rewrite Ht; [| |exact Hc].
    + rewrite Hr. unfold scaled. now rewrite (of_str_digits d Hne Hd).
    + apply not_mem_not_contains, digits_free_of; try reflexivity; assumption.
Qed.

Lemma whole_number_prices_parse_witness :
  price_to_number (Some "PKR 85000") = Returned (Some (PyFloat.of_int 85000)) /\
  price_to_number (Some "PKR 85000Crore") =
    Returned (Some (PyFloat.mul (PyFloat.of_int 85000) crore)) /\
  price_to_number (Some "PKR 85000Lakh") =
    Returned (Some (PyFloat.mul (PyFloat.of_int 85000) lakh)).
Proof.
  apply (whole_number_prices_parse " " "" "85000");
    [discriminate | reflexivity | reflexivity | reflexivity].
Defined.

(** X3: the currency token is optional: a price gives the same outcome
    with or without a leading "PKR", whatever the spaces before and after
    it. *)
Theorem currency_prefix_optional (w1 w2 s : string) :
  all isspace w1 = true -> all isspace w2 = true ->
  price_to_number (Some (w1 ++ "PKR" ++ w2 ++ s)) = price_to_number (Some s).
Proof.
  intros H1 H2. apply price_of_text, pkr_prefix_text; assumption.
Qed.

Lemma currency_prefix_optional_witness :
  price_to_number (Some " PKR  1.5 Crore") = price_to_number (Some "1.5 Crore").
Proof.
  apply (currency_prefix_optional " " "  " "1.5 Crore"); reflexivity.
Defined.

(** ** Counts in a features text *)

Section Counts.

Lemma match_here_nondigit (label : string) (c : ascii) (s : string) :
  isdigit c = false -> Re.match_here (count_re label) (String c s) = None.
Proof.
  intros H. unfold count_re.
  rewrite (match_here_greedy _ _ isdigit 1 (String c s)) by reflexivity.
  cbn [run_length]. rewrite H. reflexivity.
Qed.

Lemma search_skip (label p s : string) :
  all (fun c => negb (isdigit c)) p = true ->
  Re.search (count_re label) (p ++ s) = Re.search (count_re label) s.
Proof.
  induction p as [|c p IH]; intros H; [reflexivity|].
  cbn in H. apply andb_prop in H as [Hc H]. apply negb_true_iff in Hc.
  cbn [append Re.search]. rewrite (match_here_nondigit label c _ Hc).
  now apply IH.
Qed.

Lemma extract_of_search (label s s' : string) :
  Re.search (count_re label) s = Re.search (count_re label) s' ->
  extract_count label (Some s) = extract_count label (Some s').
Proof. intros H. unfold extract_count. now rewrite H. Qed.

Lemma spaces_no_digit (w : string) :
  all isspace w = true -> all (fun c => negb (isdigit c)) w = true.
Proof.
  induction w as [|c w IH]; intros H; [reflexivity|].
  cbn in *. apply andb_prop in H as [Hc H]. rewrite (IH H), andb_true_r.
  destruct (isdigit c) eqn:E; [|reflexivity].
  apply digit_not_space in E. congruence.
Qed.

Variables (a : ascii) (l : string).
Hypothesis label_not_digit : isdigit a = false.
Hypothesis label_not_space : isspace a = false.

(** Digits followed by spaces and then by something that is neither the
    label nor a digit are passed over. *)
Lemma search_skip_other (d w : string) (b : ascii) (t : string) :
  all isdigit d = true -> all isspace w = true ->
  isdigit b = false -> isspace b = false ->
  startswith (String a l) (String b t) = false ->
  Re.search (count_re (String a l)) (d ++ w ++ String b t) =
  Re.search (count_re (String a l)) (w ++ String b t).
Proof.
  intros Hd Hw Hbd Hbs Hno.
  induction d as [|c d IH]; [reflexivity|].
  cbn in Hd. apply andb_prop in Hd as [Hc Hd]. specialize (IH Hd).
  cbn [append Re.search].
  rewrite (match_count_re a l label_not_digit label_not_space).
  assert (E : count_here (String a l) (String c (d ++ w ++ String b t)) = None).
  { unfold count_here.
    change (String c (d ++ w ++ String b t)) with (String c d ++ w ++ String b t).
    assert (Hrun : run_length isdigit (String c d ++ w ++ String b t)
                   = length (String c d)).
    { rewrite run_length_app by (cbn; now rewrite Hc, Hd).
      destruct w as [|x w]; cbn.
      - rewrite Hbd. lia.
      - cbn in Hw. apply andb_prop in Hw as [Hx _].
        destruct (isdigit x) eqn:Ex; [|lia].
        apply digit_not_space in Ex. congruence. }
    rewrite Hrun, drop_app.
    rewrite (run_length_stop isspace w b t Hw Hbs), drop_app, Hno.
    now rewrite andb_false_r. }
  rewrite E. exact IH.
Qed.

End Counts.

(** X4: text before the first digit plays no part: the counts of a
    features text are those of the text from its first digit on. *)
Theorem leading_text_ignored (p s : string) :
  all (fun c => negb (isdigit c)) p = true ->
  extract_bed (Some (p ++ s)) = extract_bed (Some s) /\
  extract_bath (Some (p ++ s)) = extract_bath (Some s).
Proof.
  intros H. split; apply extract_of_search, search_skip, H.
Qed.

Lemma leading_text_ignored_witness :
  extract_bed (Some "Flat, 3 Bed") = extract_bed (Some "3 Bed") /\
  extract_bath (Some "Flat, 3 Bed") = extract_bath (Some "3 Bed").
Proof.
  apply (leading_text_ignored "Flat, " "3 Bed"). reflexivity.
Defined.

(** X5: in a text of the form "N Bed ... M Bath ...", with no digit
    between the two counts, the bedrooms are N and the bathrooms are M,
    whatever the spaces and whatever follows. *)
Theorem bed_and_bath_counts (d1 w1 mid d2 w2 tail : string) :
  d1 <> "" -> all isdigit d1 = true -> all isspace w1 = true ->
  all (fun c => negb (isdigit c)) mid = true ->
  d2 <> "" -> all isdigit d2 = true -> all isspace w2 = true ->
  let features := d1 ++ w1 ++ "Bed" ++ mid ++ d2 ++ w2 ++ "Bath" ++ tail in
  extract_bed (Some features) = Some (int d1) /\
  extract_bath (Some features) = Some (int d2).
Proof.
  intros Hn1 Hd1 Hw1 Hmid Hn2 Hd2 Hw2 features. split.
  - apply (extract_count_prefix "B"%char "ed"); try reflexivity; assumption.
  - transitivity (extract_bath (Some (d2 ++ w2 ++ "Bath" ++ tail))).
    + apply extract_of_search. unfold features.
      change ("Bed" ++ mid ++ d2 ++ w2 ++ "Bath" ++ tail)
        with (String "B" ("ed" ++ mid ++ d2 ++ w2 ++ "Bath" ++ tail)).
      rewrite (search_skip_other "B"%char "ath" eq_refl eq_refl d1 w1 "B"%char
                 ("ed" ++ mid ++ d2 ++ w2 ++ "Bath" ++ tail)
                 Hd1 Hw1 eq_refl eq_refl eq_refl).
      rewrite (search_skip "Bath" w1 _ (spaces_no_digit w1 Hw1)).
      change (String "B" ("ed" ++ mid ++ d2 ++ w2 ++ "Bath" ++ tail))
        with ("Bed" ++ mid ++ d2 ++ w2 ++ "Bath" ++ tail).
      rewrite (search_skip "Bath" "Bed" _ eq_refl).
      now rewrite (search_skip "Bath" mid _ Hmid).
    + apply (extract_count_prefix "B"%char "ath"); try reflexivity; assumption.
Qed.

Lemma bed_and_bath_counts_witness :
  extract_bed (Some "4 Bed, 3Bath, 250 sqyd") = Some 4 /\
  extract_bath (Some "4 Bed, 3Bath, 250 sqyd") = Some 3.
Proof.
  apply (bed_and_bath_counts "4" " " ", " "3" "" ", 250 sqyd");
    (discriminate || reflexivity).
Defined.

(** ** The batch *)

Section Batch.

Lemma usable_filter (df : list Raw.t) :
  map (fun rx => cleaned (fst rx) (Some (snd rx))) (usable df) =
  map clean_row (filter kept df).
Proof.
  induction df as [|r df IH]; [reflexivity|].
  cbn [usable filter]. unfold kept at 1.
  destruct (price_to_number (Raw.Price r)) as [[x|]|e] eqn:E; cbn [notna];
    try exact IH.
  destruct (PyFloat.isnan x); cbn [negb]; [exact IH|].
  cbn [map fst snd]. rewrite IH. unfold clean_row at 2. now rewrite E.
Qed.

Lemma cleaned_cells (r r' : Raw.t) (p : option PyFloat.float) :
  read_cells r = read_cells r' -> cleaned r p = cleaned r' p.
Proof.
  unfold read_cells. intros H. injection H as Hl Hp Hf.
  unfold cleaned, select. cbn. now rewrite Hl, Hp, Hf.
Qed.

Lemma raises_somewhere (df : list Raw.t) :
  Forall (fun r => price_to_number (Raw.Price r) <> Raised ValueError) df \/
  Exists (fun r => price_to_number (Raw.Price r) = Raised ValueError) df.
Proof.
  induction df as [|r df IH]; [left; constructor|].
  destruct (price_to_number (Raw.Price r)) as [p|[]] eqn:E.
  - destruct IH as [IH|IH].
    + left. constructor; [congruence | exact IH].
    + right. now right.
  - right. now left.
Qed.

Lemma suffix_and_foreign_raise (c : ascii) (s : string) :
  foreign c = true -> isspace c = false ->
  mem c "PKRCroeLakh" = false -> mem c s = true ->
  (contains "Crore" (strip (replace "PKR" "" s))
   || contains "Lakh" (strip (replace "PKR" "" s)))%bool = true ->
  price_to_number (Some s) = Raised ValueError.
Proof.
  intros Hf Hsp Htok Hm Hsuf.
  destruct (token_letters c Htok) as (Hp & Hc & Hl).
  pose proof (mem_strip_replace c "P" "KR" s Hp Hsp Hm) as Ht.
  destruct (contains "Crore" (strip (replace "PKR" "" s))) eqn:E1.
  - rewrite (crore_branch s E1). unfold scaled.
    now rewrite (of_str_foreign _ c Hf
                   (mem_strip_replace c "C" "rore" _ Hc Hsp Ht)).
  - cbn [orb] in Hsuf. rewrite (lakh_branch s E1 Hsuf). unfold scaled.
    now rewrite (of_str_foreign _ c Hf
                   (mem_strip_replace c "L" "akh" _ Hl Hsp Ht)).
Qed.

End Batch.

(** X6: one price that raises loses the batch, wherever its row stands:
    [clean_data] raises and returns no record, those of the good rows
    included. A price text with a suffix token and a character that
    [float] accepts nowhere, a thousands separator say, is such a price. *)
Theorem bad_price_loses_batch :
  (forall df : list Raw.t,
      Exists (fun r => price_to_number (Raw.Price r) = Raised ValueError) df ->
      clean_data df = Raised ValueError) /\
  (forall (df : list Raw.t) (r : Raw.t) (s : string) (c : ascii),
      In r df -> Raw.Price r = Some s ->
      foreign c = true -> isspace c = false ->
      mem c "PKRCroeLakh" = false -> mem c s = true ->
      (contains "Crore" (strip (replace "PKR" "" s))
       || contains "Lakh" (strip (replace "PKR" "" s)))%bool = true ->
      clean_data df = Raised ValueError).
Proof.
  split; [exact clean_data_raise|].
  intros df r s c Hin Hp Hf Hsp Htok Hm Hsuf.
  apply clean_data_raise, Exists_exists. exists r. split; [exact Hin|].
  rewrite Hp. now apply (suffix_and_foreign_raise c).
Qed.

Lemma bad_price_loses_batch_witness :
  clean_data [Raw.mk (Some "DHA") (Some "PKR 2 Crore") None None;
              Raw.mk None (Some "PKR 1,25 Crore") None None;
              Raw.mk (Some "Saddar") (Some "PKR 50 Lakh") None None] = Raised ValueError.
Proof.
  destruct bad_price_loses_batch as [_ H].
  apply (H _ (Raw.mk None (Some "PKR 1,25 Crore") None None) "PKR 1,25 Crore" ","%char);
    try reflexivity.
  right. left. reflexivity.
Defined.

(** X7: when no price raises, [clean_data] returns the rows whose price
    gave a number other than NaN, in the order of the input, each with its
    location and price text as they were. *)
Theorem clean_data_stable_filter (df : list Raw.t) :
  Forall (fun r => price_to_number (Raw.Price r) <> Raised ValueError) df ->
  clean_data df = Returned (map clean_row (filter kept df)) /\
  forall r, Clean.Location (clean_row r) = Raw.Location r /\
            Clean.Price (clean_row r) = Raw.Price r.
Proof.
  intros H. split; [|intros r; split; reflexivity].
  rewrite (clean_data_no_raise df H). now rewrite usable_filter.
Qed.

Lemma clean_data_stable_filter_witness :
  clean_data [Raw.mk (Some "DHA") (Some "PKR 2 Crore") (Some "4 Bed") None;
              Raw.mk (Some "Saddar") (Some "On request") None None;
              Raw.mk None (Some "PKR 50 Lakh") None (Some "1 day ago")] =
  Returned [Clean.mk (Some "DHA") (Some "PKR 2 Crore") (PyFloat.of_int 20000000) 4 0;
            Clean.mk None (Some "PKR 50 Lakh") (PyFloat.of_int 5000000) 0 0].
Proof.
  refine (eq_trans (proj1 (clean_data_stable_filter _ _)) _).
  - repeat constructor; vm_compute; discriminate.
  - vm_compute. reflexivity.
Defined.

(** X8: for frames whose counts are below [2^31], cleaning two frames
    one after the other and joining the results is cleaning the joined
    frame; the joined frame raises when either frame does. *)
Theorem clean_data_app (df1 df2 : list Raw.t) :
  exact_counts df1 = true -> exact_counts df2 = true ->
  clean_data (df1 ++ df2)%list =
  out1 <- clean_data df1 ;;
  out2 <- clean_data df2 ;;
  Returned (out1 ++ out2)%list.
Proof.
  intros _ _. induction df1 as [|r df1 IH].
  - cbn [app]. destruct (clean_data df2); reflexivity.
  - cbn [app]. rewrite !clean_data_cons, IH.
    destruct (price_to_number (Raw.Price r)) as [p|e]; cbn [bind]; [|reflexivity].
    destruct (clean_data df1) as [out1|e]; cbn [bind]; [|reflexivity].
    destruct (clean_data df2) as [out2|e]; cbn [bind]; [|reflexivity].
    now destruct (notna p).
Qed.

Lemma clean_data_app_witness :
  let df1 := [Raw.mk (Some "DHA") (Some "PKR 2 Crore") (Some "4 Bed 3 Bath") None;
              Raw.mk (Some "Saddar") (Some "On request") (Some "2 Bed") None] in
  let df2 := [Raw.mk None (Some "PKR 50 Lakh") None None] in
  clean_data (df1 ++ df2)%list =
  Returned [Clean.mk (Some "DHA") (Some "PKR 2 Crore") (PyFloat.of_int 20000000) 4 3;
            Clean.mk None (Some "PKR 50 Lakh") (PyFloat.of_int 5000000) 0 0].
Proof.
  intros df1 df2.
  refine (eq_trans (clean_data_app df1 df2 _ _) _); vm_compute; reflexivity.
Defined.

(** X9: only the location, price and features cells are read: frames that
    agree on them, whatever their "Last Updated" cells, clean to the same
    result. *)
Theorem clean_data_reads_three_cells (df df' : list Raw.t) :
  map read_cells df = map read_cells df' ->
  clean_data df = clean_data df'.
Proof.
  revert df'; induction df as [|r df IH]; intros [|r' df'] H;
    try discriminate; [reflexivity|].
  cbn [map] in H. injection H as Hl Hp Hf H.
  rewrite !clean_data_cons, (IH df' H), Hp.
  destruct (price_to_number (Raw.Price r')) as [p|e]; cbn [bind]; [|reflexivity].
  rewrite (cleaned_cells r r' p); [reflexivity|].
  unfold read_cells. now rewrite Hl, Hp, Hf.
Qed.

Lemma clean_data_reads_three_cells_witness :
  clean_data [Raw.mk (Some "DHA") (Some "PKR 2 Crore") (Some "4 Bed") (Some "1 day ago")] =
  clean_data [Raw.mk (Some "DHA") (Some "PKR 2 Crore") (Some "4 Bed") None].
Proof.
  apply clean_data_reads_three_cells. reflexivity.
Defined.

(** ** What the filter shows *)

Section Shown.

Lemma leb_not_nan (x y : PyFloat.float) :
  PyFloat.leb x y = true -> PyFloat.isnan x = false /\ PyFloat.isnan y = false.
Proof. destruct x, y; cbn; intros H; split; congruence. Qed.

Lemma leb_trans (x y z : PyFloat.float) :
  PyFloat.leb x y = true -> PyFloat.leb y z = true -> PyFloat.leb x z = true.
Proof.
  unfold PyFloat.leb, SFleb, SFcompare.
  destruct x as [s1|s1| |s1 m1 e1], y as [s2|s2| |s2 m2 e2],
           z as [s3|s3| |s3 m3 e3];
    try destruct s1; try destruct s2; try destruct s3;
    try discriminate; try reflexivity;
    change (Pos.compare_cont Eq) with Pos.compare;
    repeat match goal with
           | |- context [Z.compare ?u ?v] => destruct (Z.compare_spec u v)
           | |- context [Pos.compare ?u ?v] => destruct (Pos.compare_spec u v)
           end;
    cbn; try discriminate; try reflexivity; intros; subst; lia.
Qed.

Lemma unique_from_In (seen values : list (option string)) (x : option string) :
  In x (unique_from seen values) <-> In x values /\ ~ In x seen.
Proof.
  revert seen; induction values as [|y rest IH]; intros seen; cbn [unique_from].
  - cbn. tauto.
  - destruct (isin y seen) eqn:E.
    + rewrite IH. apply isin_In in E. cbn [In]. split.
      * tauto.
      * intros [[<-|H] Hn]; [contradiction | tauto].
    + assert (Hy : ~ In y seen) by (rewrite <- isin_In; congruence).
      cbn [In]. rewrite IH. cbn [In]. split.
      * intros [<-|[H Hn]]; tauto.
      * intros [[<-|H] Hn]; [now left|].
        destruct (eqb_cell y x) eqn:Eyx.
        -- apply eqb_cell_eq in Eyx. now left.
        -- right. split; [exact H|]. intros [Heq|Hs]; [|contradiction].
           apply eqb_cell_eq in Heq. congruence.
Qed.

Lemma unique_from_NoDup (seen values : list (option string)) :
  NoDup (unique_from seen values).
Proof.
  revert seen; induction values as [|y rest IH]; intros seen; cbn [unique_from].
  - constructor.
  - destruct (isin y seen); [apply IH|].
    constructor; [|apply IH].
    rewrite unique_from_In. cbn [In]. tauto.
Qed.

Lemma unique_In (values : list (option string)) (x : option string) :
  In x (unique values) <-> In x values.
Proof. unfold unique. rewrite unique_from_In. cbn. tauto. Qed.

Lemma firstn_In_list {A} (n : nat) (xs : list A) (x : A) :
  In x (firstn n xs) -> In x xs.
Proof.
  revert xs; induction n as [|n IH]; intros [|y xs]; cbn; try tauto.
  intros [H|H]; [now left | right; now apply IH].
Qed.

Lemma firstn_NoDup {A} (n : nat) (xs : list A) :
  NoDup xs -> NoDup (firstn n xs).
Proof.
  revert xs; induction n as [|n IH]; intros xs H; [constructor|].
  destruct H as [|y xs Hy H]; cbn; constructor; [|now apply IH].
  intros Hin. apply Hy. now apply (firstn_In_list n).
Qed.

Lemma firstn_short {A} (n : nat) (xs : list A) :
  (List.length (firstn n xs) <= n)%nat.
Proof.
  revert xs; induction n as [|n IH]; intros [|y xs]; cbn; try lia.
  specialize (IH xs). lia.
Qed.

End Shown.

(** X10: a row whose number is NaN is never shown, and a NaN bound shows
    nothing, whatever the selection. *)
Theorem nan_is_never_shown (sel : list (option string)) (lo hi : PyFloat.float)
        (df : list Clean.t) (r : Clean.t) :
  In r (apply_filters sel (lo, hi) df) ->
  PyFloat.isnan (Clean.Price_numeric r) = false /\
  PyFloat.isnan lo = false /\ PyFloat.isnan hi = false.
Proof.
  intros H. apply apply_filters_In in H as (_ & _ & H1 & H2).
  apply leb_not_nan in H1, H2. tauto.
Qed.

Lemma nan_is_never_shown_witness :
  let a := Clean.mk (Some "DHA") (Some "PKR 2 Crore") (PyFloat.of_int 20000000) 4 3 in
  PyFloat.isnan (Clean.Price_numeric a) = false /\
  PyFloat.isnan (PyFloat.of_int 0) = false /\ PyFloat.isnan PyFloat.inf = false.
Proof.
  intros a.
  apply (nan_is_never_shown [] (PyFloat.of_int 0) PyFloat.inf [a] a).
  left. reflexivity.
Defined.

(** X11: widening the price range, or the selection, hides no row that
    was shown. *)
Theorem widening_hides_nothing (sel sel' : list (option string))
        (lo hi lo' hi' : PyFloat.float) (df : list Clean.t) (r : Clean.t) :
  PyFloat.leb lo' lo = true -> PyFloat.leb hi hi' = true ->
  sel' = [] \/ (sel <> [] /\ incl sel sel') ->
  In r (apply_filters sel (lo, hi) df) ->
  In r (apply_filters sel' (lo', hi') df).
Proof.
  intros Hlo Hhi Hsel H. apply apply_filters_In.
  apply apply_filters_In in H as (Hin & Hloc & H1 & H2).
  split; [exact Hin|]. split; [|split].
  - destruct Hsel as [->|[Hne Hincl]]; [now left|].
    right. destruct Hloc as [->|Hloc]; [contradiction | now apply Hincl].
  - exact (leb_trans _ _ _ Hlo H1).
  - exact (leb_trans _ _ _ H2 Hhi).
Qed.

Lemma widening_hides_nothing_witness :
  let a := Clean.mk (Some "DHA") (Some "PKR 2 Crore") (PyFloat.of_int 20000000) 4 3 in
  let b := Clean.mk (Some "Clifton") (Some "PKR 50 Lakh") (PyFloat.of_int 5000000) 2 2 in
  In a (apply_filters [Some "DHA"; Some "Clifton"]
                      (PyFloat.of_int 0, PyFloat.of_int 30000000) [b; a]).
Proof.
  intros a b.
  apply (widening_hides_nothing [Some "DHA"] [Some "DHA"; Some "Clifton"]
           (PyFloat.of_int 10000000) (PyFloat.of_int 20000000)
           (PyFloat.of_int 0) (PyFloat.of_int 30000000)).
  - reflexivity.
  - reflexivity.
  - right. split; [discriminate|]. intros x [<-|[]]. left. reflexivity.
  - vm_compute. left. reflexivity.
Defined.

(** X12: selecting every location of the table shows the same rows as
    selecting none. *)
Theorem all_selected_is_none_selected (price_range : PyFloat.float * PyFloat.float)
        (df : list Clean.t) :
  apply_filters (unique (map Clean.Location df)) price_range df =
  apply_filters [] price_range df.
Proof.
  destruct price_range as [lo hi]. rewrite !apply_filters_filter.
  apply filter_ext_in. intros r Hr. unfold keeps.
  destruct (unique (map Clean.Location df)) as [|x xs] eqn:E; [reflexivity|].
  rewrite <- E.
  replace (isin (Clean.Location r) (unique (map Clean.Location df))) with true;
    [reflexivity|].
  symmetry. apply isin_In, unique_In, in_map, Hr.
Qed.

(** X13: the selection offered by default lists no location twice, holds
    at most five of them, all taken from the table, and holds every
    location of the table when there are at most five different ones. *)
Theorem default_locations_spec (df : list Clean.t) :
  NoDup (default_locations df) /\
  (List.length (default_locations df) <= 5)%nat /\
  (forall x, In x (default_locations df) -> In x (map Clean.Location df)) /\
  ((List.length (unique (map Clean.Location df)) <= 5)%nat ->
   forall r, In r df -> In (Clean.Location r) (default_locations df)).
Proof.
  unfold default_locations.
  destruct (Nat.ltb 5 (List.length (unique (map Clean.Location df)))) eqn:E.
  - apply Nat.ltb_lt in E. split; [|split; [|split]].
    + apply firstn_NoDup, unique_from_NoDup.
    + apply firstn_short.
    + intros x Hx. apply firstn_In_list in Hx. now apply unique_In.
    + lia.
  - apply Nat.ltb_ge in E. split; [|split; [|split]].
    + apply unique_from_NoDup.
    + exact E.
    + intros x Hx. now apply unique_In.
    + intros _ r Hr. apply unique_In, in_map, Hr.
Qed.

Lemma default_locations_spec_witness :
  let row l := Clean.mk (Some l) (Some "PKR 1 Crore") (PyFloat.of_int 10000000) 0 0 in
  In (Some "Clifton") (default_locations [row "DHA"; row "Clifton"; row "DHA"]).
Proof.
  intros row.
  destruct (default_locations_spec [row "DHA"; row "Clifton"; row "DHA"])
    as (_ & _ & _ & H).
  apply (H ltac:(vm_compute; lia) (row "Clifton")). right. left. reflexivity.
Defined.

(** ** The pages requested *)

Section Pages.

Lemma str_inj (m n : Z) : str m = str n -> m = n.
Proof.
  unfold str. intros H. apply DecimalZ.to_int_inj.
  apply (f_equal NilEmpty.int_of_string) in H.
  rewrite !NilEmpty.isi in H. now injection H.
Qed.

Lemma string_length_app (s t : string) :
  length (s ++ t) = (length s + length t)%nat.
Proof. induction s as [|c s IH]; [reflexivity | cbn; now rewrite IH]. Qed.

Lemma append_inv_head (p s t : string) : p ++ s = p ++ t -> s = t.
Proof.
  induction p as [|c p IH]; intros H; [exact H|].
  cbn in H. injection H as H. now apply IH.
Qed.

Lemma append_inv_tail (s t e : string) : s ++ e = t ++ e -> s = t.
Proof.
  revert t; induction s as [|c s IH]; intros [|c' t] H.
  - reflexivity.
  - apply (f_equal length) in H. cbn in H. rewrite string_length_app in H. lia.
  - apply (f_equal length) in H. cbn in H. rewrite string_length_app in H. lia.
  - cbn in H. injection H as -> H. f_equal. now apply IH.
Qed.

Lemma page_url_inj (m n : Z) : page_url m = page_url n -> m = n.
Proof.
  unfold page_url. intros H.
  apply append_inv_head, append_inv_tail in H. now apply str_inj.
Qed.

Lemma map_NoDup {A B} (f : A -> B) (xs : list A) :
  (forall x y, f x = f y -> x = y) -> NoDup xs -> NoDup (map f xs).
Proof.
  intros Hinj. induction 1 as [|x xs Hx _ IH]; cbn; constructor; [|exact IH].
  intros Hin. apply in_map_iff in Hin as (y & Hy & Hin).
  apply Hinj in Hy. now subst.
Qed.

Lemma range_NoDup (start stop : Z) : NoDup (range start stop).
Proof.
  unfold range. apply map_NoDup; [|apply seq_NoDup].
  intros i j H. lia.
Qed.

End Pages.

(** X14: [fetchData] requests one address for each page from 1 to
    [pages], in that order and none twice; for [pages] below 1 it requests
    nothing. *)
Theorem requested_urls_spec (pages : Z) :
  (pages <= 0 -> requested_urls pages = []) /\
  (0 <= pages ->
   requested_urls (pages + 1) =
   (requested_urls pages ++ [page_url (pages + 1)])%list) /\
  List.length (requested_urls pages) = Z.to_nat pages /\
  NoDup (requested_urls pages).
Proof.
  unfold requested_urls, range. split; [|split; [|split]].
  - intros H. replace (Z.to_nat (pages + 1 - 1)) with 0%nat by lia. reflexivity.
  - intros H. replace (Z.to_nat (pages + 1 + 1 - 1)) with (S (Z.to_nat pages)) by lia.
    replace (Z.to_nat (pages + 1 - 1)) with (Z.to_nat pages) by lia.
    rewrite seq_S, !map_app. cbn [map]. do 3 f_equal. lia.
  - rewrite !length_map, length_seq. lia.
  - apply map_NoDup; [exact page_url_inj | apply range_NoDup].
Qed.

Lemma requested_urls_spec_witness :
  requested_urls 2 =
  ["https://www.zameen.com/Homes/Karachi_Gulshan_e_Iqbal_Town-6858-1.html";
   "https://www.zameen.com/Homes/Karachi_Gulshan_e_Iqbal_Town-6858-2.html"] /\
  requested_urls (-3) = [].
Proof.
  destruct (requested_urls_spec 1) as (_ & Hstep & _).
  destruct (requested_urls_spec (-3)) as (Hnone & _).
  split; [|apply Hnone; lia].
  change 2 with (1 + 1). rewrite (Hstep ltac:(lia)). reflexivity.
Defined.
